(** * Mood based song recommendation service: a shallow embedding of
    [backend/main.py] and the properties of its two recommendation handlers.

    The Flask handlers are pure functions of the request body, the preprocessed
    data frame [df] and the state of the global [random] generator.  What the
    program takes from outside (the Unicode character database behind the [str]
    methods, what the installed pandas makes of a missing value, the pickled
    classifier and label encoder, the generators of [random] and numpy) is a
    parameter of the development. *)

From Stdlib Require Import NArith ZArith QArith_base String Ascii Lia.
From stdpp Require Import base tactics option list numbers.

Local Open Scope N_scope.

(** ** Python [str] values *)

(** A [str] is a sequence of Unicode code points. *)
Abbreviation str := (list N).

Definition lit (s : string) : str := N_of_ascii <$> list_ascii_of_string s.

(** The part of the Unicode character database that [str.lower],
    [str.capitalize] and [str.strip] consult for a code point outside ASCII:
    its full lowercase mapping, its full titlecase mapping, and whether it is
    whitespace. *)
Class UnicodeData := {
  ucd_lower : N → str;
  ucd_title : N → str;
  ucd_space : N → bool
}.

Definition ascii_isupper (c : N) : bool := (65 <=? c) && (c <=? 90).
Definition ascii_islower (c : N) : bool := (97 <=? c) && (c <=? 122).

(** [str.isspace] on ASCII: TAB, LF, VT, FF, CR, FS, GS, RS, US and SPACE. *)
Definition ascii_isspace (c : N) : bool :=
  ((9 <=? c) && (c <=? 13)) || ((28 <=? c) && (c <=? 32)).

Section PyStr.
Context {ucd : UnicodeData}.

Definition cp_lower (c : N) : str :=
  if c <? 128 then [if ascii_isupper c then c + 32 else c] else ucd_lower c.

Definition cp_title (c : N) : str :=
  if c <? 128 then [if ascii_islower c then c - 32 else c] else ucd_title c.

Definition cp_space (c : N) : bool :=
  if c <? 128 then ascii_isspace c else ucd_space c.

(** [s.lower()]: every code point is replaced by its lowercase mapping.  (The
    one rule of [str.lower] that looks at the neighbours of a code point, for
    GREEK CAPITAL LETTER SIGMA at the end of a word, is not modelled.) *)
Definition py_lower (s : str) : str := s ≫= cp_lower.

(** [s.capitalize()]: the first code point in titlecase, the rest in
    lowercase. *)
Definition py_capitalize (s : str) : str :=
  match s with
  | [] => []
  | c :: rest => cp_title c ++ py_lower rest
  end.

(** A code point on which lowering first does not change the capitalised
    form. *)
Definition case_stable (c : N) : Prop :=
  cp_lower c ≠ []
  ∧ py_lower (cp_lower c) = cp_lower c
  ∧ py_capitalize (cp_lower c) = cp_title c.

Fixpoint py_lstrip (s : str) : str :=
  match s with
  | [] => []
  | c :: rest => if cp_space c then py_lstrip rest else s
  end.

Definition py_rstrip (s : str) : str := reverse (py_lstrip (reverse s)).

(** [s.strip()] *)
Definition py_strip (s : str) : str := py_rstrip (py_lstrip s).

(** The three places where a mood is brought to its canonical form. *)

(** [main.py] 65: [data.get("mood", "").strip().capitalize()] *)
Definition normalize_query (s : str) : str := py_capitalize (py_strip s).

(** [main.py] 104-108: [le.inverse_transform(...)[0].strip().capitalize()] *)
Definition normalize_label (s : str) : str := py_capitalize (py_strip s).

(** [main.py] 37-43 on a string cell: [.str.strip().str.lower().str.capitalize()] *)
Definition normalize_dataset (s : str) : str :=
  py_capitalize (py_lower (py_strip s)).
End PyStr.

(** Lexicographic order on code points, the order of [sorted] on [str]. *)
Fixpoint str_leb (a b : str) : bool :=
  match a, b with
  | [], _ => true
  | _ :: _, [] => false
  | x :: a', y :: b' => if x <? y then true else if y <? x then false else str_leb a' b'
  end.

Fixpoint insert_sorted (x : str) (l : list str) : list str :=
  match l with
  | [] => [x]
  | y :: l' => if str_leb x y then x :: l else y :: insert_sorted x l'
  end.

(** [sorted(l)] *)
Definition sorted (l : list str) : list str := foldr insert_sorted [] l.

(** [Series.unique()]: the distinct values in order of first appearance. *)
Fixpoint unique (l : list str) : list str :=
  match l with
  | [] => []
  | x :: l' => x :: filter (λ y, y ≠ x) (unique l')
  end.

(** ** Python exceptions and JSON values *)

(** An exception: its class and [str(e)]. *)
Record exn := Exn { exn_class : string; exn_str : str }.

Inductive pyresult (A : Type) : Type :=
  | Ok (a : A)
  | Raise (e : exn).
Arguments Ok {A} a.
Arguments Raise {A} e.

Global Instance pyresult_ret : MRet pyresult := λ A a, Ok a.
Global Instance pyresult_bind : MBind pyresult := λ A B f m,
  match m with
  | Ok a => f a
  | Raise e => Raise e
  end.
Global Instance pyresult_fmap : FMap pyresult := λ A B f m,
  match m with
  | Ok a => Ok (f a)
  | Raise e => Raise e
  end.

(** What [json.loads] builds and [jsonify] serialises.  A [dict] is an
    association list; a key is looked up from the front. *)
#[warnings="-register-all"] Inductive json :=
  | JNull
  | JBool (b : bool)
  | JInt (z : Z)
  | JFloat (q : Q)
  | JStr (s : str)
  | JArr (l : list json)
  | JObj (o : list (str * json)).

(** [bool(v)] *)
Definition truthy (v : json) : bool :=
  match v with
  | JNull => false
  | JBool b => b
  | JInt z => negb (z =? 0)%Z
  | JFloat q => negb (Qnum q =? 0)%Z
  | JStr s => negb (bool_decide (s = []))
  | JArr l => match l with [] => false | _ => true end
  | JObj o => match o with [] => false | _ => true end
  end.

Definition py_type_name (v : json) : string :=
  match v with
  | JNull => "NoneType"
  | JBool _ => "bool"
  | JInt _ => "int"
  | JFloat _ => "float"
  | JStr _ => "str"
  | JArr _ => "list"
  | JObj _ => "dict"
  end.

Definition attribute_error (v : json) (attr : string) : exn :=
  Exn "AttributeError"
      (lit "'" ++ lit (py_type_name v) ++ lit "' object has no attribute '"
       ++ lit attr ++ lit "'").

Fixpoint dict_lookup (key : str) (o : list (str * json)) : option json :=
  match o with
  | [] => None
  | (k, v) :: o' => if decide (k = key) then Some v else dict_lookup key o'
  end.

(** [data.get(key, default)]: only a [dict] has the method. *)
Definition py_get (data : json) (key : str) (dflt : json) : pyresult json :=
  match data with
  | JObj o => Ok (default dflt (dict_lookup key o))
  | _ => Raise (attribute_error data "get")
  end.

(** [v.strip()]: only a [str] has the method. *)
Definition py_strip_method `{UnicodeData} (v : json) : pyresult str :=
  match v with
  | JStr s => Ok (py_strip s)
  | _ => Raise (attribute_error v "strip")
  end.

(** [request.get_json(silent=True) or {}].  The request carries [None] when
    it has no body or the body is not parseable as JSON. *)
Definition get_json_or_empty (body : option json) : json :=
  match body with
  | Some v => if truthy v then v else JObj []
  | None => JObj []
  end.

(** A handler returns a JSON body and a status code. *)
Definition response : Type := nat * json.

Definition error_body (msg : str) : json := JObj [(lit "error", JStr msg)].

(** [main.py] 81-84 *)
Definition mood_ok_body (mood_input : str) (songs : list str) : json :=
  JObj [(lit "mood", JStr mood_input); (lit "songs", JArr (JStr <$> songs))].

(** [main.py] 125-129 *)
Definition song_ok_body (song_input predicted_mood : str)
    (recommendations : list str) : json :=
  JObj [(lit "song_input", JStr song_input);
        (lit "predicted_mood", JStr predicted_mood);
        (lit "recommendations", JArr (JStr <$> recommendations))].

(** ** The data frame *)

(** A cell of the [mood] column: a string, or NaN for a missing value. *)
Inductive cell := CStr (s : str) | CNaN.

Global Instance cell_eq_dec : EqDecision cell.
Proof. solve_decision. Defined.

(** Where the installed pandas decides: [Series.astype(str)] turns a missing
    value into the string "nan" before pandas 3.0, and keeps it missing from
    pandas 3.0 on. *)
Class Pandas := { astype_str_keeps_missing : bool }.

Definition pandas_before_3 : Pandas := {| astype_str_keeps_missing := false |}.
Definition pandas_3 : Pandas := {| astype_str_keeps_missing := true |}.

(** The behaviour of the versions before 3.0, as a condition on the library. *)
Definition missing_becomes_nan `{Pandas} : Prop := astype_str_keeps_missing = false.

(** [Series.astype(str)] *)
Definition astype_str `{Pandas} (c : cell) : cell :=
  match c with
  | CStr s => CStr s
  | CNaN => if astype_str_keeps_missing then CNaN else CStr (lit "nan")
  end.

(** [Series.str.f()]: [f] on the strings, NaN stays NaN. *)
Definition str_accessor (f : str → str) (c : cell) : cell :=
  match c with
  | CStr s => CStr (f s)
  | CNaN => CNaN
  end.

(** [main.py] 37-43 on one cell. *)
Definition normalize_cell {ucd : UnicodeData} {pd : Pandas} (c : cell) : cell :=
  str_accessor py_capitalize
    (str_accessor py_lower (str_accessor py_strip (astype_str c))).

(** [Series.dropna().tolist()] *)
Definition dropna (col : list cell) : list str :=
  omap (λ c, match c with CStr s => Some s | CNaN => None end) col.

Section DataFrame.
Context {ucd : UnicodeData} {pd : Pandas}.
(** The type of the numeric audio features; the service only hands them to
    the classifier. *)
Context {num : Type}.

Record Song := {
  song_name : str;
  mood : cell;
  valence : num;
  danceability : num;
  energy : num;
  tempo : num;
  acousticness : num;
  liveness : num
}.

Definition set_mood (c : cell) (r : Song) : Song :=
  {| song_name := song_name r; mood := c; valence := valence r;
     danceability := danceability r; energy := energy r; tempo := tempo r;
     acousticness := acousticness r; liveness := liveness r |}.

(** [main.py] 37-43: the [mood] column is replaced by its normal form. *)
Definition preprocess (raw : list Song) : list Song :=
  (λ r, set_mood (normalize_cell (mood r)) r) <$> raw.

(** [main.py] 45-52 and 100, [row[features]]: the six features in the order of
    the list [features].  (That pandas brings the values of the row to one
    numeric type is not modelled: [num] is one type.) *)
Definition features (r : Song) : list num :=
  [valence r; danceability r; energy r; tempo r; acousticness r; liveness r].

(** [main.py] 54 *)
Definition available_moods (df : list Song) : list str :=
  sorted (unique (dropna (mood <$> df))).

(** [main.py] 73: [df[df["mood"] == mood_input]] *)
Definition songs_by_mood (df : list Song) (m : str) : list Song :=
  filter (λ r, mood r = CStr m) df.

(** [main.py] 95: [df[df["song_name"].str.lower() == song_input.lower()]] *)
Definition songs_by_name (df : list Song) (song_input : str) : list Song :=
  filter (λ r, py_lower (song_name r) = py_lower song_input) df.

(** [main.py] 112-115 *)
Definition mood_songs (df : list Song) (predicted_mood song_input : str)
  : list Song :=
  filter (λ r, mood r = CStr predicted_mood
               ∧ py_lower (song_name r) ≠ py_lower song_input) df.

(** [DataFrame.iloc[0]] *)
Definition iloc0 (rows : list Song) : pyresult Song :=
  match rows with
  | r :: _ => Ok r
  | [] => Raise (Exn "IndexError" (lit "single positional indexer is out-of-bounds"))
  end.

(** [DataFrame.take(idx)] *)
Definition take_rows (rows : list Song) (idx : list nat) : pyresult (list Song) :=
  match mapM (λ i, rows !! i) idx with
  | Some picked => Ok picked
  | None => Raise (Exn "IndexError" (lit "indices are out-of-bounds"))
  end.
End DataFrame.
Arguments Song : clear implicits.

(** ** What the service loads and imports *)

(** The global generator of [random], numpy's seeded generator, the pickled
    model and the pickled label encoder. *)
Class Runtime (num : Type) := {
  (** the state of the generator behind the [random] module *)
  rng : Type;
  (** [random.randint(a, b)] *)
  randint : nat → nat → rng → nat * rng;
  (** [numpy.random.RandomState(seed).choice(n, size=k, replace=False)] *)
  np_choice : N → nat → nat → list nat;
  (** [model.predict(input_df)[0]] on a one-row frame *)
  model_predict : list num → pyresult Z;
  (** [le.inverse_transform([code])[0]] *)
  le_inverse_transform : Z → pyresult str
}.

(** What the libraries promise about the two generators. *)
Definition randint_in_range `{Runtime num} : Prop :=
  ∀ a b g, (a ≤ b)%nat → (a ≤ (randint a b g).1 ≤ b)%nat.

Definition np_choice_sized `{Runtime num} : Prop :=
  ∀ seed n k, (k ≤ n)%nat → length (np_choice seed n k) = k.

Section Service.
Context {ucd : UnicodeData} {num : Type} {rt : Runtime num}.

(** [DataFrame.sample(count, random_state=seed)]: a fresh generator is
    seeded, draws [count] positions without replacement, and the rows at
    these positions are taken. *)
Definition sample (rows : list (Song num)) (count : nat) (seed : N)
  : pyresult (list (Song num)) :=
  if decide (count ≤ length rows)%nat
  then take_rows rows (np_choice seed (length rows) count)
  else Raise (Exn "ValueError"
    (lit "Cannot take a larger sample than population when 'replace=False'")).

(** [main.py] 78-79 and 122-123, with the names of the sampled rows. *)
Definition sample_names (pool : list (Song num)) (g : rng)
  : pyresult (list str) * rng :=
  let '(r, g') := randint 5 8 g in
  let count := (r `min` length pool)%nat in
  ((λ sampled : list (Song num), song_name <$> sampled)
     <$> sample pool count 42, g').

(** The size drawn for a pool: [min(random.randint(5, 8), len(pool))]. *)
Definition drawn_count (pool : list (Song num)) (g : rng) : nat :=
  ((randint 5 8 g).1 `min` length pool)%nat.

Definition is_empty {A} (l : list A) : bool :=
  match l with [] => true | _ => false end.

(** [main.py] 62-84 *)
Definition recommend_songs_by_mood (df : list (Song num)) (body : option json)
    (g : rng) : pyresult response * rng :=
  let data := get_json_or_empty body in
  match py_get data (lit "mood") (JStr []) ≫= py_strip_method with
  | Raise e => (Raise e, g)
  | Ok stripped =>
    let mood_input := py_capitalize stripped in
    if is_empty mood_input then
      (Ok (400%nat, error_body (lit "Mood is required.")), g)
    else if decide (mood_input ∉ available_moods df) then
      (Ok (404%nat, error_body (lit "Mood '" ++ mood_input ++ lit "' not found.")), g)
    else
      let filtered_songs := songs_by_mood df mood_input in
      if is_empty filtered_songs then
        (Ok (404%nat, error_body
               (lit "No songs found for mood '" ++ mood_input ++ lit "'.")), g)
      else
        let '(names, g') := sample_names filtered_songs g in
        ((λ songs, (200%nat, mood_ok_body mood_input songs)) <$> names, g')
  end.

(** [main.py] 101-108: the feature vector goes through the model, the
    code through the label encoder, the label through the normaliser. *)
Definition classify (input_features : list num) : pyresult str :=
  predicted_mood_encoded ← model_predict input_features;
  label ← le_inverse_transform predicted_mood_encoded;
  mret (normalize_label label).

(** [main.py] 99-108, the body of the [try]. *)
Definition predict_mood (song_row : list (Song num)) : pyresult str :=
  row ← iloc0 song_row;
  classify (features row).

(** [main.py] 109-129: what the handler does with the outcome of the [try]. *)
Definition respond_prediction (df : list (Song num)) (song_input : str)
    (prediction : pyresult str) (g : rng) : pyresult response * rng :=
  match prediction with
  | Raise e =>
    (Ok (500%nat, error_body (lit "Prediction failed: " ++ exn_str e)), g)
  | Ok predicted_mood =>
    let pool := mood_songs df predicted_mood song_input in
    if is_empty pool then
      (Ok (404%nat, error_body
             (lit "No recommendations found for mood '" ++ predicted_mood
              ++ lit "'.")), g)
    else
      let '(names, g') := sample_names pool g in
      ((λ recommendations,
          (200%nat, song_ok_body song_input predicted_mood recommendations))
         <$> names, g')
  end.

(** [main.py] 87-129 *)
Definition recommend_songs_by_song (df : list (Song num)) (body : option json)
    (g : rng) : pyresult response * rng :=
  let data := get_json_or_empty body in
  match py_get data (lit "song") (JStr []) ≫= py_strip_method with
  | Raise e => (Raise e, g)
  | Ok song_input =>
    if is_empty song_input then
      (Ok (400%nat, error_body (lit "Song name is required.")), g)
    else
      let song_row := songs_by_name df song_input in
      if is_empty song_row then
        (Ok (404%nat, error_body (lit "Song '" ++ song_input ++ lit "' not found.")), g)
      else
        respond_prediction df song_input (predict_mood song_row) g
  end.

(** The two POST routes of the application. *)
Inductive endpoint := RecommendMood | RecommendSong.

Definition post (ep : endpoint)
  : list (Song num) → option json → rng → pyresult response * rng :=
  match ep with
  | RecommendMood => recommend_songs_by_mood
  | RecommendSong => recommend_songs_by_song
  end.

(** The field a route reads from the body, and its complaint when the field
    is empty. *)
Definition required_field (ep : endpoint) : str :=
  match ep with
  | RecommendMood => lit "mood"
  | RecommendSong => lit "song"
  end.

Definition required_message (ep : endpoint) : str :=
  match ep with
  | RecommendMood => lit "Mood is required."
  | RecommendSong => lit "Song name is required."
  end.

(** [data.get(key, "").strip()] on the coerced body, lines 64-65 and 89-90. *)
Definition request_field (key : str) (body : option json) : pyresult str :=
  py_get (get_json_or_empty body) key (JStr []) ≫= py_strip_method.

(** The 200 body of a route. *)
Definition ok_body (ep : endpoint) (m song_input : str) (names : list str)
  : json :=
  match ep with
  | RecommendMood => mood_ok_body m names
  | RecommendSong => song_ok_body song_input m names
  end.

(** The candidate pool of a route for a given normalised mood. *)
Definition candidate_pool (ep : endpoint) (df : list (Song num))
    (m song_input : str) : list (Song num) :=
  match ep with
  | RecommendMood => songs_by_mood df m
  | RecommendSong => mood_songs df m song_input
  end.
End Service.
Arguments endpoint : clear implicits.

(** ** Shapes of request bodies *)

(** The body is absent or unparseable, is JSON null, or is an object without
    the field. *)
Definition lacks_field (key : str) (body : option json) : Prop :=
  body = None ∨ body = Some JNull
  ∨ ∃ o, body = Some (JObj o) ∧ dict_lookup key o = None.

(** The body is an object whose field is the string [s]. *)
Definition has_string_field (key : str) (body : option json) (s : str) : Prop :=
  ∃ o, body = Some (JObj o) ∧ dict_lookup key o = Some (JStr s).

(** The field of the body read as the handlers read it when it is well typed:
    a missing field reads as the empty string. *)
Definition field_reads (key : str) (body : option json) (s : str) : Prop :=
  (lacks_field key body ∧ s = []) ∨ has_string_field key body s.

(** The body makes [data.get(key, "").strip()] fail: it is a truthy JSON value
    that is not an object, or an object whose field is not a string. *)
Definition ill_typed (key : str) (body : option json) : Prop :=
  ∃ v, body = Some v ∧ truthy v = true
    ∧ match v with
      | JObj o => ∃ w, dict_lookup key o = Some w ∧ ∀ s, w ≠ JStr s
      | _ => True
      end.

(** ** The two GET routes *)

(** [main.py] 13-23 *)
Definition home : response :=
  (200%nat,
   JObj [(lit "status", JStr (lit "running"));
         (lit "message", JStr (lit "Mood Based Song Recommendation API"));
         (lit "endpoints",
          JObj [(lit "GET /api/moods", JStr (lit "Get available moods"));
                (lit "POST /api/recommend/mood", JStr (lit "Recommend songs by mood"));
                (lit "POST /api/recommend/song",
                 JStr (lit "Recommend songs by song name"))])]).

(** [main.py] 57-59 *)
Definition get_available_moods {num : Type} (df : list (Song num)) : response :=
  (200%nat, JObj [(lit "available_moods", JArr (JStr <$> available_moods df))]).

(** The order in which [sorted] arranges strings. *)
Definition str_le (a b : str) : Prop := str_leb a b = true.

(** ** More of what numpy promises, and ASCII data *)

(** The positions drawn by [choice(n, size=k, replace=False)] are positions
    of the population, and no position is drawn twice. *)
Definition np_choice_in_range `{Runtime num} : Prop :=
  ∀ seed n k, (k ≤ n)%nat → Forall (λ i, (i < n)%nat) (np_choice seed n k).

Definition np_choice_distinct `{Runtime num} : Prop :=
  ∀ seed n k, (k ≤ n)%nat → NoDup (np_choice seed n k).

Definition is_ascii (s : str) : Prop := Forall (λ c, c < 128) s.

Definition ascii_cell (c : cell) : Prop :=
  match c with
  | CStr s => is_ascii s
  | CNaN => True
  end.

(** [str.lower] and [str.upper] on one ASCII code point. *)
Definition ascii_lo (c : N) : N := if ascii_isupper c then c + 32 else c.
Definition ascii_up (c : N) : N := if ascii_islower c then c - 32 else c.

(** A string without whitespace at either end. *)
Definition trimmed `{UnicodeData} (t : str) : Prop :=
  (∀ c, list.head t = Some c → cp_space c = false)
  ∧ (∀ c, list.last t = Some c → cp_space c = false).

(** ** Data for the examples *)

(** Entries of the Unicode character database used below.  U+0130 LATIN
    CAPITAL LETTER I WITH DOT ABOVE has the lowercase mapping U+0069 U+0307
    (SpecialCasing.txt) and is its own titlecase; U+0307 COMBINING DOT ABOVE
    has no case; U+00A0 NO-BREAK SPACE is whitespace.  A code point that is
    not listed is left as it is. *)
Definition unicode_fragment : UnicodeData := {|
  ucd_lower c := if c =? 0x130 then [0x69; 0x307] else [c];
  ucd_title c := [c];
  ucd_space c := c =? 0xA0
|}.

(** A runtime to run the handlers on: a counter for [random], the last [k]
    positions in reverse for numpy, a classifier that thresholds the valence
    and an encoder with two labels. *)
Definition demo_runtime : Runtime Z := {|
  rng := nat;
  randint a b g := ((a + g `mod` (b - a + 1))%nat, S g);
  np_choice seed n k := reverse (seq (n - k) k);
  model_predict v :=
    match v with
    | x :: _ => Ok (if (x <? 50)%Z then 1%Z else 0%Z)
    | [] => Raise (Exn "ValueError" (lit "Found array with 0 feature(s)"))
    end;
  le_inverse_transform code :=
    if (code =? 0)%Z then Ok (lit " happy")
    else if (code =? 1)%Z then Ok (lit "SAD")
    else Raise (Exn "ValueError" (lit "y contains previously unseen labels"))
|}.

Definition demo_song (name : string) (m : cell) (v : Z) : Song Z :=
  {| song_name := lit name; mood := m; valence := v; danceability := 0%Z;
     energy := 0%Z; tempo := 120%Z; acousticness := 0%Z; liveness := 0%Z |}.

Definition demo_raw : list (Song Z) :=
  [ demo_song "Song A" (CStr (lit " happy ")) 80;
    demo_song "song a" (CStr (lit "SAD")) 10;
    demo_song "Song B" (CStr (lit "Happy")) 70;
    demo_song "Song C" (CStr (lit "HAPPY")) 90;
    demo_song "Song D" CNaN 20;
    demo_song "Song E" (CStr (lit "sad")) 30;
    demo_song "Song F" (CStr (lit "happy")) 60 ].

Definition demo_df : list (Song Z) :=
  preprocess (ucd := unicode_fragment) (pd := pandas_before_3) demo_raw.

(** A data set in which one name is another one with a space in front. *)
Definition padded_df : list (Song Z) :=
  [ demo_song " Song A" (CStr (lit "Sad")) 10;
    demo_song "Song A" (CStr (lit "Happy")) 80;
    demo_song " song a" (CStr (lit "Happy")) 70 ].

Definition json_body (key : string) (v : json) : option json :=
  Some (JObj [(lit key, v)]).

(** * Properties *)

(** ** The mood index *)

Lemma elem_of_insert_sorted (x y : str) (l : list str) :
  y ∈ insert_sorted x l ↔ y = x ∨ y ∈ l.
Proof.
  induction l as [|z l IH]; simpl.
  - rewrite list_elem_of_singleton, elem_of_nil. tauto.
  - destruct (str_leb x z).
    + rewrite !elem_of_cons. tauto.
    + rewrite !elem_of_cons, IH. tauto.
Qed.

Lemma elem_of_sorted (x : str) (l : list str) : x ∈ sorted l ↔ x ∈ l.
Proof.
  unfold sorted. induction l as [|y l IH]; simpl; [done|].
  rewrite elem_of_insert_sorted, IH, elem_of_cons. tauto.
Qed.

Lemma elem_of_unique (x : str) (l : list str) : x ∈ unique l ↔ x ∈ l.
Proof.
  induction l as [|y l IH]; simpl; [done|].
  rewrite !elem_of_cons, list_elem_of_filter, IH.
  destruct (decide (x = y)); tauto.
Qed.

Lemma elem_of_dropna (s : str) (col : list cell) : s ∈ dropna col ↔ CStr s ∈ col.
Proof.
  unfold dropna. rewrite list_elem_of_omap. split.
  - intros ([t|] & Hin & Heq); simplify_eq. done.
  - intros Hin. exists (CStr s). done.
Qed.

Section MoodIndex.
Context {num : Type}.
Implicit Types (df : list (Song num)) (m : str).

Lemma elem_of_available_moods df m :
  m ∈ available_moods df ↔ ∃ r, r ∈ df ∧ mood r = CStr m.
Proof.
  unfold available_moods.
  rewrite elem_of_sorted, elem_of_unique, elem_of_dropna, list_elem_of_fmap.
  split; intros (r & H1 & H2); exists r; done.
Qed.

Lemma songs_by_mood_nonempty df m :
  m ∈ available_moods df → songs_by_mood df m ≠ [].
Proof.
  rewrite elem_of_available_moods. intros (r & Hin & Hm) Hnil.
  assert (r ∈ songs_by_mood df m) as Hr.
  { unfold songs_by_mood. rewrite list_elem_of_filter. done. }
  rewrite Hnil in Hr. by apply not_elem_of_nil in Hr.
Qed.
End MoodIndex.

(** ** Normalisation of moods *)

Section Normalisation.
Context {ucd : UnicodeData}.
Implicit Types (s : str) (c : N).

Lemma py_lower_app s1 s2 : py_lower (s1 ++ s2) = py_lower s1 ++ py_lower s2.
Proof. unfold py_lower. apply bind_app. Qed.

Lemma py_lower_cons c s : py_lower (c :: s) = cp_lower c ++ py_lower s.
Proof. reflexivity. Qed.

Lemma ascii_case_stable c : c < 128 → case_stable c.
Proof.
  intros Hc. unfold case_stable, cp_lower.
  destruct (N.ltb_spec c 128) as [_|?]; [|lia].
  unfold ascii_isupper.
  destruct (N.leb_spec 65 c), (N.leb_spec c 90); simpl;
    (split; [done|]); unfold cp_lower, cp_title, ascii_isupper, ascii_islower;
    repeat match goal with
           | |- context [N.ltb ?a ?b] => destruct (N.ltb_spec a b); try lia
           | |- context [N.leb ?a ?b] => destruct (N.leb_spec a b); try lia
           end; simpl; repeat split; repeat f_equal; lia.
Qed.

Lemma py_lower_idemp s : Forall case_stable s → py_lower (py_lower s) = py_lower s.
Proof.
  induction 1 as [|c s (_ & Hc & _) _ IH]; [done|].
  rewrite py_lower_cons, py_lower_app, Hc, IH. done.
Qed.

Lemma py_capitalize_lower s :
  Forall case_stable s → py_capitalize (py_lower s) = py_capitalize s.
Proof.
  destruct 1 as [|c s (Hne & _ & Hc) Hs]; [done|].
  rewrite py_lower_cons. simpl.
  destruct (cp_lower c) as [|d ds] eqn:Hd; [done|].
  simpl in *. rewrite py_lower_app, (py_lower_idemp s Hs), <- Hc.
  by rewrite <- app_assoc.
Qed.

Lemma py_lstrip_Forall (P : N → Prop) s : Forall P s → Forall P (py_lstrip s).
Proof.
  induction 1 as [|c s Hc Hs IH]; simpl; [done|].
  destruct (cp_space c); [done|]. by constructor.
Qed.

Lemma py_strip_Forall (P : N → Prop) s : Forall P s → Forall P (py_strip s).
Proof.
  intros Hs. unfold py_strip, py_rstrip.
  apply Forall_reverse, py_lstrip_Forall, Forall_reverse.
  by apply py_lstrip_Forall.
Qed.

(** The query and the classifier output go through one and the same
    function. *)
Lemma normalize_label_query s : normalize_label s = normalize_query s.
Proof. reflexivity. Qed.

(** The data set is lowered first; on case-stable code points, and so on
    ASCII, this changes nothing. *)
Lemma normalize_dataset_query s :
  Forall case_stable s → normalize_dataset s = normalize_query s.
Proof.
  intros Hs. unfold normalize_dataset, normalize_query.
  by apply py_capitalize_lower, py_strip_Forall.
Qed.

Lemma normalize_dataset_query_ascii s :
  Forall (λ c, c < 128) s → normalize_dataset s = normalize_query s.
Proof.
  intros Hs. apply normalize_dataset_query.
  induction Hs; constructor; auto using ascii_case_stable.
Qed.
End Normalisation.

(** ** Request bodies *)

Section Requests.
Context {ucd : UnicodeData} {num : Type} {rt : Runtime num}.
Implicit Types (df : list (Song num)) (body : option json) (g : rng).

Lemma request_field_lacks key body :
  lacks_field key body → request_field key body = Ok [].
Proof.
  intros [-> | [-> | (o & -> & Ho)]]; try reflexivity.
  unfold request_field, get_json_or_empty.
  destruct o as [|kv o]; [reflexivity|]. simpl truthy. cbv iota.
  unfold py_get. rewrite Ho. reflexivity.
Qed.

Lemma request_field_string key body s :
  has_string_field key body s → request_field key body = Ok (py_strip s).
Proof.
  intros (o & -> & Ho). unfold request_field, get_json_or_empty.
  destruct o as [|kv o]; [done|]. simpl truthy. cbv iota.
  unfold py_get. rewrite Ho. reflexivity.
Qed.

Lemma post_empty_field ep df body g :
  request_field (required_field ep) body = Ok [] →
  post ep df body g = (Ok (400%nat, error_body (required_message ep)), g).
Proof.
  intros Hf. destruct ep; simpl in *;
    unfold recommend_songs_by_mood, recommend_songs_by_song;
    unfold request_field in Hf; rewrite Hf; reflexivity.
Qed.
End Requests.

Section Validation.
Context {ucd : UnicodeData} {num : Type} {rt : Runtime num}.
Implicit Types (df : list (Song num)) (body : option json) (g : rng).

Lemma request_field_reads key body s :
  field_reads key body s → request_field key body = Ok (py_strip s).
Proof.
  intros [[Hl ->] | Hs].
  - by apply request_field_lacks.
  - by apply request_field_string.
Qed.

(** C10: a POST to either recommend endpoint whose body is absent or not
    parseable as JSON, is JSON null, or is an object lacking the required
    field is answered with the 400 response of an empty field value, and the
    handler does not raise. *)
Theorem missing_field_as_empty_field (ep : endpoint) df body g :
  lacks_field (required_field ep) body →
  post ep df body g = (Ok (400%nat, error_body (required_message ep)), g)
  ∧ post ep df body g
    = post ep df (Some (JObj [(required_field ep, JStr [])])) g.
Proof.
  intros Hl.
  assert (post ep df body g
          = (Ok (400%nat, error_body (required_message ep)), g)) as E.
  { by apply post_empty_field, request_field_lacks. }
  split; [exact E|]. rewrite E. symmetry.
  apply post_empty_field.
  rewrite (request_field_string _ _ []); [done|].
  eexists; split; [done|]. simpl. by rewrite decide_True.
Qed.

(** C5 (fails on the code): a body whose field is not a string, or a body
    that is a non-empty JSON value other than an object, makes the handler
    raise [AttributeError]; no JSON error body is produced. *)
Theorem ill_typed_body_raises df g :
  recommend_songs_by_mood df (Some (JObj [(lit "mood", JInt 5)])) g
    = (Raise (attribute_error (JInt 5) "strip"), g)
  ∧ recommend_songs_by_song df (Some (JObj [(lit "song", JNull)])) g
    = (Raise (attribute_error JNull "strip"), g)
  ∧ recommend_songs_by_mood df (Some (JArr [JInt 1])) g
    = (Raise (attribute_error (JArr [JInt 1]) "get"), g).
Proof. repeat split. Qed.

(** C3 (amended): when the mood field is missing or a string,
    [recommend_songs_by_mood] answers 400 "Mood is required." exactly when
    the field is missing or empty after normalisation, and answers 404
    "Mood '<mood>' not found." exactly when the normalised mood is not empty
    and not among the available moods. *)
Theorem mood_validation df body g (s : str) :
  field_reads (lit "mood") body s →
  let m := normalize_query s in
  (recommend_songs_by_mood df body g
     = (Ok (400%nat, error_body (lit "Mood is required.")), g)
   ↔ lacks_field (lit "mood") body ∨ m = [])
  ∧ (recommend_songs_by_mood df body g
       = (Ok (404%nat, error_body (lit "Mood '" ++ m ++ lit "' not found.")), g)
     ↔ m ≠ [] ∧ m ∉ available_moods df).
Proof.
  intros Hr m.
  assert (lacks_field (lit "mood") body → m = []) as Hlm.
  { intros Hl. destruct Hr as [[_ ->] | (o & -> & Ho)]; [done|].
    destruct Hl as [?|[?|(o' & ? & Ho')]]; simplify_eq. }
  pose proof (request_field_reads _ _ _ Hr) as Hf.
  unfold recommend_songs_by_mood. unfold request_field in Hf. rewrite Hf.
  fold (normalize_query s). fold m.
  destruct m as [|c m'] eqn:Hm; simpl is_empty; cbv iota.
  { split; [split; auto|]. split; [discriminate|]. by intros [? _]. }
  destruct (decide (c :: m' ∉ available_moods df)) as [Hn|Hin].
  { split; [split; [discriminate|]|].
    - intros [Hl|?]; [|done]. by apply Hlm in Hl.
    - split; [done|]. intros _. done. }
  apply dec_stable in Hin.
  pose proof (songs_by_mood_nonempty _ _ Hin) as Hne.
  destruct (songs_by_mood df (c :: m')) as [|r pool] eqn:Hp; [done|].
  simpl is_empty. cbv iota.
  destruct (sample_names (r :: pool) g) as [[names|e] g'].
  - split; (split; [discriminate|]).
    + intros [Hl|?]; [|done]. by apply Hlm in Hl.
    + by intros [_ ?].
  - split; (split; [discriminate|]).
    + intros [Hl|?]; [|done]. by apply Hlm in Hl.
    + by intros [_ ?].
Qed.
End Validation.

(** C10, on the example data: JSON null sent to the song endpoint. *)
Lemma missing_field_as_empty_field_witness :
  post (ucd := unicode_fragment) (rt := demo_runtime)
       RecommendSong demo_df (Some JNull) 0%nat
    = (Ok (400%nat, error_body (lit "Song name is required.")), 0%nat)
  ∧ post (ucd := unicode_fragment) (rt := demo_runtime)
         RecommendSong demo_df (Some JNull) 0%nat
    = post (ucd := unicode_fragment) (rt := demo_runtime)
           RecommendSong demo_df (Some (JObj [(lit "song", JStr [])])) 0%nat.
Proof.
  apply (missing_field_as_empty_field (ucd := unicode_fragment)
           (rt := demo_runtime) RecommendSong demo_df (Some JNull) 0%nat).
  right; left; reflexivity.
Defined.

(** C3 as stated fails: the empty mood is not among the available moods of the
    example data, yet the answer is the 400 response and not the 404 one. *)
Lemma mood_not_found_iff_counterexample :
  let m := normalize_query (ucd := unicode_fragment) (lit "  ") in
  ¬ (recommend_songs_by_mood (ucd := unicode_fragment) (rt := demo_runtime)
       demo_df (json_body "mood" (JStr (lit "  "))) 0%nat
       = (Ok (404%nat, error_body (lit "Mood '" ++ m ++ lit "' not found.")), 0%nat)
     ↔ m ∉ available_moods demo_df).
Proof.
  intros m [_ H].
  assert (m ∉ available_moods demo_df) as Hn.
  { apply (bool_decide_unpack _). vm_compute. exact I. }
  specialize (H Hn). vm_compute in H. discriminate H.
Qed.

(** C3 (amended), on the example data: the query " hAPPY" is neither rejected
    as empty nor as unknown. *)
Lemma mood_validation_witness :
  let m := normalize_query (ucd := unicode_fragment) (lit " hAPPY") in
  (recommend_songs_by_mood (ucd := unicode_fragment) (rt := demo_runtime)
     demo_df (json_body "mood" (JStr (lit " hAPPY"))) 0%nat
     = (Ok (400%nat, error_body (lit "Mood is required.")), 0%nat)
   ↔ lacks_field (lit "mood") (json_body "mood" (JStr (lit " hAPPY"))) ∨ m = [])
  ∧ (recommend_songs_by_mood (ucd := unicode_fragment) (rt := demo_runtime)
       demo_df (json_body "mood" (JStr (lit " hAPPY"))) 0%nat
       = (Ok (404%nat, error_body (lit "Mood '" ++ m ++ lit "' not found.")), 0%nat)
     ↔ m ≠ [] ∧ m ∉ available_moods demo_df).
Proof.
  apply (mood_validation (ucd := unicode_fragment) (rt := demo_runtime)
           demo_df (json_body "mood" (JStr (lit " hAPPY"))) 0%nat (lit " hAPPY")).
  right. exists [(lit "mood", JStr (lit " hAPPY"))]. split; reflexivity.
Defined.

(** ** The data set after loading *)

Section Loading.
Context {ucd : UnicodeData} {pd : Pandas} {num : Type}.

Lemma normalize_cell_CStr (s : str) :
  normalize_cell (CStr s) = CStr (normalize_dataset s).
Proof. reflexivity. Qed.

Lemma normalize_cell_missing :
  normalize_cell CNaN = if astype_str_keeps_missing then CNaN else CStr (lit "Nan").
Proof. unfold normalize_cell, astype_str. by destruct astype_str_keeps_missing. Qed.

Lemma normalize_cell_is_str (c : cell) :
  missing_becomes_nan → ∃ s, normalize_cell c = CStr s.
Proof.
  intros Hp. destruct c; [eexists; reflexivity|].
  rewrite normalize_cell_missing, Hp. by eexists.
Qed.

Lemma dropna_normalize_length (col : list cell) :
  missing_becomes_nan → length (dropna (normalize_cell <$> col)) = length col.
Proof.
  intros Hp. induction col as [|c col IH]; [done|].
  rewrite fmap_cons. destruct (normalize_cell_is_str c Hp) as [s ->].
  change (dropna (CStr s :: (normalize_cell <$> col)))
    with (s :: dropna (normalize_cell <$> col)).
  simpl. by rewrite IH.
Qed.

(** C9 (amended): when the installed pandas turns a missing value into the
    string "nan" under [astype(str)], as the versions before 3.0 do, then
    after the preprocessing at startup the mood of every record is a string,
    and a record whose original mood was missing holds the literal "Nan"; the
    records keep their order, names and features, and none is dropped. *)
Theorem preprocess_moods (raw : list (Song num)) :
  missing_becomes_nan →
  Forall (λ r, ∃ s, mood r = CStr s) (preprocess raw)
  ∧ Forall2 (λ r0 r, song_name r = song_name r0
                     ∧ features r = features r0
                     ∧ mood r = normalize_cell (mood r0)
                     ∧ (mood r0 = CNaN → mood r = CStr (lit "Nan")))
      raw (preprocess raw)
  ∧ dropna (mood <$> preprocess raw) = dropna (normalize_cell <$> (mood <$> raw))
  ∧ length (dropna (mood <$> preprocess raw)) = length raw.
Proof.
  intros Hp.
  assert (mood <$> preprocess raw = normalize_cell <$> (mood <$> raw)) as Hcol.
  { unfold preprocess. rewrite <- !list_fmap_compose. done. }
  split; [|split; [|split]].
  - unfold preprocess. apply Forall_fmap, Forall_forall. intros r _.
    by apply normalize_cell_is_str.
  - unfold preprocess. apply Forall2_fmap_r, Forall2_same_length_lookup_2; [done|].
    intros i r0 r1 H0 H1. simplify_eq. repeat split. simpl. intros ->.
    by rewrite normalize_cell_missing, Hp.
  - by rewrite Hcol.
  - by rewrite Hcol, dropna_normalize_length, length_fmap.
Qed.
End Loading.

(** C9 as stated fails under pandas 3.0: a record without a mood still has no
    mood after the preprocessing; its mood is neither a string nor "Nan", and
    it contributes nothing to the available moods. *)
Lemma missing_mood_stays_missing_counterexample :
  ¬ Forall (λ r, ∃ s, mood r = CStr s)
      (preprocess (ucd := unicode_fragment) (pd := pandas_3)
         [demo_song "Song D" CNaN 20])
  ∧ Forall (λ r, mood r = CNaN)
      (preprocess (ucd := unicode_fragment) (pd := pandas_3)
         [demo_song "Song D" CNaN 20])
  ∧ available_moods
      (preprocess (ucd := unicode_fragment) (pd := pandas_3)
         [demo_song "Song D" CNaN 20]) = [].
Proof.
  split; [|split; [by repeat constructor|reflexivity]].
  intros H. apply Forall_inv in H as [s Hs]. discriminate Hs.
Qed.

(** C9 (amended), on the example data under the behaviour of pandas before
    3.0. *)
Lemma preprocess_moods_witness :
  Forall (λ r, ∃ s, mood r = CStr s) demo_df
  ∧ Forall2 (λ r0 r, song_name r = song_name r0
                     ∧ features r = features r0
                     ∧ mood r = normalize_cell (ucd := unicode_fragment)
                                  (pd := pandas_before_3) (mood r0)
                     ∧ (mood r0 = CNaN → mood r = CStr (lit "Nan")))
      demo_raw demo_df
  ∧ dropna (mood <$> demo_df)
    = dropna (normalize_cell (ucd := unicode_fragment) (pd := pandas_before_3)
                <$> (mood <$> demo_raw))
  ∧ length (dropna (mood <$> demo_df)) = length demo_raw.
Proof.
  apply (preprocess_moods (ucd := unicode_fragment) (pd := pandas_before_3) demo_raw).
  reflexivity.
Defined.

(** C4 (fails on the code): on U+0130 the data set site, which lowers before
    it capitalises, yields "I" followed by U+0307, while the query site and
    the classifier site yield U+0130; a data set whose only mood is U+0130
    answers the query U+0130 with 404. *)
Theorem normalization_sites_disagree :
  normalize_dataset (ucd := unicode_fragment) [0x130] = [0x49; 0x307]
  ∧ normalize_query (ucd := unicode_fragment) [0x130] = [0x130]
  ∧ normalize_label (ucd := unicode_fragment) [0x130] = [0x130]
  ∧ available_moods
      (preprocess (ucd := unicode_fragment) (pd := pandas_before_3)
         [demo_song "Song T" (CStr [0x130]) 50])
    = [[0x49; 0x307]]
  ∧ recommend_songs_by_mood (ucd := unicode_fragment) (rt := demo_runtime)
      (preprocess (ucd := unicode_fragment) (pd := pandas_before_3)
         [demo_song "Song T" (CStr [0x130]) 50])
      (json_body "mood" (JStr [0x130])) 0%nat
    = (Ok (404%nat, error_body (lit "Mood '" ++ [0x130] ++ lit "' not found.")),
       0%nat).
Proof. repeat split. Qed.

(** ** Sampling *)

Section Sampling.
Context {ucd : UnicodeData} {num : Type} {rt : Runtime num}.
Implicit Types (df pool : list (Song num)) (g : rng).

Lemma take_rows_Ok pool idx picked :
  take_rows pool idx = Ok picked →
  length picked = length idx ∧ Forall (λ r, r ∈ pool) picked.
Proof.
  unfold take_rows. destruct (mapM _ idx) as [l|] eqn:Hm; [|done].
  intros [= ->]. apply mapM_Some_1 in Hm. split.
  - symmetry. by eapply Forall2_length.
  - induction Hm as [|i r idx picked Hi _ IH]; constructor; [|done].
    by eapply list_elem_of_lookup_2.
Qed.

Lemma sample_Ok pool count seed picked :
  sample pool count seed = Ok picked →
  (count ≤ length pool)%nat
  ∧ length picked = length (np_choice seed (length pool) count)
  ∧ Forall (λ r, r ∈ pool) picked.
Proof.
  unfold sample. destruct (decide _) as [Hle|]; [|done].
  intros H. apply take_rows_Ok in H. tauto.
Qed.

Lemma sample_names_eq pool g :
  sample_names pool g
  = ((λ sampled : list (Song num), song_name <$> sampled)
       <$> sample pool (drawn_count pool g) 42, (randint 5 8 g).2).
Proof.
  unfold sample_names, drawn_count. by destruct (randint 5 8 g).
Qed.

Lemma sample_names_Ok pool g names g' :
  sample_names pool g = (Ok names, g') →
  ∃ picked, names = song_name <$> picked
    ∧ Forall (λ r, r ∈ pool) picked
    ∧ length names = length (np_choice 42 (length pool) (drawn_count pool g)).
Proof.
  rewrite sample_names_eq.
  destruct (sample pool _ 42) as [picked|e] eqn:Hs; [|done].
  intros [= <- _]. apply sample_Ok in Hs as (_ & Hlen & Hin).
  exists picked. by rewrite length_fmap.
Qed.

Lemma drawn_count_bounds pool g :
  randint_in_range →
  let n := length pool in
  ((5 `min` n) ≤ drawn_count pool g ≤ (8 `min` n)
   ∧ drawn_count pool g ≤ n
   ∧ (n < 5 → drawn_count pool g = n))%nat.
Proof.
  intros Hr n. unfold drawn_count.
  specialize (Hr 5 8 g ltac:(lia))%nat. fold n. lia.
Qed.
End Sampling.

(** ** The two handlers *)

Section Handlers.
Context {ucd : UnicodeData} {num : Type} {rt : Runtime num}.
Implicit Types (df pool : list (Song num)) (body : option json) (g : rng).

(** What a 200 answer of the mood route tells. *)
Lemma recommend_songs_by_mood_200 df body g b g' :
  recommend_songs_by_mood df body g = (Ok (200%nat, b), g') →
  ∃ stripped names,
    request_field (lit "mood") body = Ok stripped
    ∧ let m := py_capitalize stripped in
      m ∈ available_moods df
      ∧ sample_names (songs_by_mood df m) g = (Ok names, g')
      ∧ b = mood_ok_body m names.
Proof.
  unfold recommend_songs_by_mood, request_field.
  destruct (py_get _ _ _ ≫= py_strip_method) as [stripped|e]; [|done].
  destruct (is_empty (py_capitalize stripped)); [done|].
  destruct (decide _) as [|Hin]; [done|]. apply dec_stable in Hin.
  destruct (is_empty _); [done|].
  destruct (sample_names _ g) as [[names|e] g1] eqn:Hs; [|done].
  intros [= <- <-]. by exists stripped, names.
Qed.

(** What a 200 answer of the song route tells. *)
Lemma recommend_songs_by_song_200 df body g b g' :
  recommend_songs_by_song df body g = (Ok (200%nat, b), g') →
  ∃ song_input p names,
    request_field (lit "song") body = Ok song_input
    ∧ predict_mood (songs_by_name df song_input) = Ok p
    ∧ sample_names (mood_songs df p song_input) g = (Ok names, g')
    ∧ b = song_ok_body song_input p names.
Proof.
  unfold recommend_songs_by_song, request_field.
  destruct (py_get _ _ _ ≫= py_strip_method) as [song_input|e]; [|done].
  destruct (is_empty song_input); [done|].
  destruct (is_empty _); [done|].
  unfold respond_prediction.
  destruct (predict_mood _) as [p|e] eqn:Hp; [|intros [= ? _]; lia].
  destruct (is_empty _); [done|].
  destruct (sample_names _ g) as [[names|e] g1] eqn:Hs; [|done].
  intros [= <- <-]. by exists song_input, p, names.
Qed.

(** C7: a mood among the available moods has at least one record, and the
    mood route never answers 404 "No songs found for mood '<mood>'.". *)
Theorem no_songs_branch_unreachable df (m : str) :
  m ∈ available_moods df →
  songs_by_mood df m ≠ []
  ∧ ∀ body g (m' : str),
      (recommend_songs_by_mood df body g).1
      ≠ Ok (404%nat, error_body (lit "No songs found for mood '" ++ m' ++ lit "'.")).
Proof.
  intros Hm. split; [by apply songs_by_mood_nonempty|].
  intros body g m'. unfold recommend_songs_by_mood.
  destruct (py_get _ _ _ ≫= py_strip_method) as [stripped|e]; [|done].
  destruct (is_empty (py_capitalize stripped)); [done|].
  destruct (decide _) as [|Hin]; [done|]. apply dec_stable in Hin.
  pose proof (songs_by_mood_nonempty _ _ Hin) as Hne.
  destruct (songs_by_mood df _) as [|r pool]; [done|]. simpl is_empty. cbv iota.
  destruct (sample_names _ g) as [[names|e] g1]; done.
Qed.

(** C1 (amended): in a 200 answer of the song route every recommended name
    is the name of a record whose mood is the predicted mood, and no
    recommended name equals the stripped query, which the answer echoes as
    [song_input], when case is ignored. *)
Theorem recommendations_sound df body g b g' :
  recommend_songs_by_song df body g = (Ok (200%nat, b), g') →
  ∃ song_input predicted_mood recommendations,
    b = song_ok_body song_input predicted_mood recommendations
    ∧ request_field (lit "song") body = Ok song_input
    ∧ (∀ q, has_string_field (lit "song") body q → song_input = py_strip q)
    ∧ predict_mood (songs_by_name df song_input) = Ok predicted_mood
    ∧ Forall (λ name,
        (∃ r, r ∈ df ∧ song_name r = name ∧ mood r = CStr predicted_mood)
        ∧ py_lower name ≠ py_lower song_input) recommendations.
Proof.
  intros H. apply recommend_songs_by_song_200 in H
    as (song_input & p & names & Hf & Hp & Hs & ->).
  exists song_input, p, names. repeat split; try done.
  { intros q Hq. apply request_field_string in Hq. congruence. }
  apply sample_names_Ok in Hs as (picked & -> & Hin & _).
  apply Forall_fmap. eapply Forall_impl; [|exact Hin].
  intros r Hr. unfold mood_songs in Hr.
  apply list_elem_of_filter in Hr as [[Hm Hn] Hr]. simpl. eauto.
Qed.
End Handlers.

Section HandlersSampling.
Context {ucd : UnicodeData} {num : Type} {rt : Runtime num}.
Implicit Types (df pool : list (Song num)) (body : option json) (g : rng).

Lemma sampled_length pool g names g' :
  randint_in_range → np_choice_sized →
  sample_names pool g = (Ok names, g') →
  let n := length pool in
  ((5 `min` n) ≤ length names ≤ (8 `min` n) ∧ (n < 5 → length names = n))%nat.
Proof.
  intros Hr Hc Hs n.
  apply sample_names_Ok in Hs as (picked & _ & _ & ->).
  destruct (drawn_count_bounds pool g Hr) as (Hb & Hle & Hsmall).
  rewrite Hc by exact Hle. fold n in Hsmall. split; [exact Hb|exact Hsmall].
Qed.

(** C2: in a 200 answer of either route the number of returned names lies
    between min(5, N) and min(8, N), where N is the size of the candidate
    pool, and is N when N < 5. *)
Theorem sample_count_bounds (ep : endpoint) df body g b g' :
  randint_in_range → np_choice_sized →
  post ep df body g = (Ok (200%nat, b), g') →
  ∃ (m song_input : str) (names : list str),
    b = ok_body ep m song_input names
    ∧ let n := length (candidate_pool ep df m song_input) in
      ((5 `min` n) ≤ length names ≤ (8 `min` n)
       ∧ (n < 5 → length names = n))%nat.
Proof.
  intros Hr Hc H. destruct ep; simpl in H.
  - apply recommend_songs_by_mood_200 in H as (stripped & names & _ & _ & Hs & ->).
    exists (py_capitalize stripped), [], names. split; [done|].
    by eapply sampled_length.
  - apply recommend_songs_by_song_200 in H as (song_input & p & names & _ & _ & Hs & ->).
    exists p, song_input, names. split; [done|].
    by eapply sampled_length.
Qed.

(** C6: for a fixed candidate pool and a fixed sample size the sampling step
    yields the same sequence of names whatever the state of the global
    generator: the rows are those at the positions drawn by the generator
    seeded with 42. *)
Theorem sampling_deterministic pool g1 g2 :
  drawn_count pool g1 = drawn_count pool g2 →
  (sample_names pool g1).1 = (sample_names pool g2).1
  ∧ (sample_names pool g1).1
    = (λ picked : list (Song num), song_name <$> picked)
        <$> take_rows pool (np_choice 42 (length pool) (drawn_count pool g1)).
Proof.
  intros Hk. rewrite !sample_names_eq. simpl. rewrite Hk. split; [done|].
  unfold sample. rewrite decide_True; [done|]. unfold drawn_count. lia.
Qed.

(** Two requests that draw the same number get the same answer. *)
Lemma post_deterministic (ep : endpoint) df body g1 g2 :
  (randint 5 8 g1).1 = (randint 5 8 g2).1 →
  (post ep df body g1).1 = (post ep df body g2).1.
Proof.
  intros Hr.
  assert (∀ pool, (sample_names pool g1).1 = (sample_names pool g2).1) as Hs.
  { intros pool. rewrite !sample_names_eq. simpl. unfold drawn_count.
    by rewrite Hr. }
  destruct ep; simpl.
  - unfold recommend_songs_by_mood.
    destruct (py_get _ _ _ ≫= py_strip_method) as [stripped|e]; [|done].
    destruct (is_empty (py_capitalize stripped)); [done|].
    destruct (decide _); [done|]. destruct (is_empty _); [done|].
    specialize (Hs (songs_by_mood df (py_capitalize stripped))).
    destruct (sample_names _ g1), (sample_names _ g2). simpl in *. by rewrite Hs.
  - unfold recommend_songs_by_song.
    destruct (py_get _ _ _ ≫= py_strip_method) as [song_input|e]; [|done].
    destruct (is_empty song_input); [done|]. destruct (is_empty _); [done|].
    unfold respond_prediction. destruct (predict_mood _) as [p|e]; [|done].
    destruct (is_empty _); [done|].
    specialize (Hs (mood_songs df p song_input)).
    destruct (sample_names _ g1), (sample_names _ g2). simpl in *. by rewrite Hs.
Qed.

Lemma filter_first_match {A} (P : A → Prop) `{∀ x, Decision (P x)} (l : list A) :
  filter P l ≠ [] →
  ∃ pre r post, l = pre ++ r :: post ∧ P r ∧ Forall (λ x, ¬ P x) pre
    ∧ filter P l = r :: filter P post.
Proof.
  induction l as [|x l IH]; [done|]. intros Hne.
  destruct (decide (P x)) as [Hx|Hx].
  - exists [], x, l. by rewrite filter_cons_True.
  - rewrite filter_cons_False in Hne |- * by done.
    destruct (IH Hne) as (pre & r & post & -> & Hr & Hpre & Hf).
    exists (x :: pre), r, post. repeat split; try done. by constructor.
Qed.

(** C8 (amended): for a query that is not empty after stripping and whose
    stripped form is the name of some record when case is ignored, the song
    route takes the first such record in row order, hands its six features,
    in the order valence, danceability, energy, tempo, acousticness,
    liveness, to the model, decodes and normalises the label, and answers
    from that prediction: 500 with the text of the exception, or an answer
    for the predicted mood. *)
Theorem first_match_classified df body g (q : str) :
  has_string_field (lit "song") body q →
  py_strip q ≠ [] →
  songs_by_name df (py_strip q) ≠ [] →
  ∃ pre r post,
    df = pre ++ r :: post
    ∧ py_lower (song_name r) = py_lower (py_strip q)
    ∧ Forall (λ x, py_lower (song_name x) ≠ py_lower (py_strip q)) pre
    ∧ let prediction : pyresult str :=
        code ← model_predict [valence r; danceability r; energy r; tempo r;
                              acousticness r; liveness r];
        label ← le_inverse_transform code;
        mret (py_capitalize (py_strip label)) in
      predict_mood (songs_by_name df (py_strip q)) = prediction
      ∧ recommend_songs_by_song df body g
        = respond_prediction df (py_strip q) prediction g
      ∧ match prediction with
        | Raise e =>
          recommend_songs_by_song df body g
          = (Ok (500%nat, error_body (lit "Prediction failed: " ++ exn_str e)), g)
        | Ok p =>
          recommend_songs_by_song df body g
          = (Ok (404%nat, error_body (lit "No recommendations found for mood '"
                                      ++ p ++ lit "'.")), g)
          ∨ ∃ names : pyresult (list str),
              recommend_songs_by_song df body g
              = ((λ recs, (200%nat, song_ok_body (py_strip q) p recs)) <$> names,
                 (randint 5 8 g).2)
        end.
Proof.
  intros Hq Hne Hmatch.
  destruct (filter_first_match _ df Hmatch) as (pre & r & post & Hdf & Hr & Hpre & Hf).
  exists pre, r, post. split; [done|]. split; [done|]. split; [done|].
  intros prediction.
  assert (predict_mood (songs_by_name df (py_strip q)) = prediction) as Hp.
  { unfold songs_by_name. by rewrite Hf. }
  assert (recommend_songs_by_song df body g
          = respond_prediction df (py_strip q) prediction g) as Hh.
  { unfold recommend_songs_by_song.
    pose proof (request_field_string _ _ _ Hq) as Hrf.
    unfold request_field in Hrf. rewrite Hrf.
    destruct (py_strip q) as [|c s] eqn:Hs; [done|]. simpl is_empty. cbv iota.
    unfold songs_by_name in *. rewrite Hf. reflexivity. }
  split; [exact Hp|]. split; [exact Hh|]. rewrite Hh. unfold respond_prediction.
  destruct prediction as [p|e]; [|done].
  destruct (is_empty _); [by left|]. right.
  rewrite sample_names_eq. by eexists.
Qed.
End HandlersSampling.

(** ** The theorems on the example data *)

Lemma demo_randint_in_range : randint_in_range (H := demo_runtime).
Proof.
  intros a b g Hab. simpl.
  pose proof (Nat.mod_upper_bound g (b - a + 1)) as Hm. lia.
Qed.

Lemma demo_np_choice_sized : np_choice_sized (H := demo_runtime).
Proof. intros seed n k _. simpl. by rewrite length_reverse, length_seq. Qed.

(** C7 on the example data, for the mood "Happy". *)
Lemma no_songs_branch_unreachable_witness :
  songs_by_mood demo_df (lit "Happy") ≠ []
  ∧ ∀ body g (m' : str),
      (recommend_songs_by_mood (ucd := unicode_fragment) (rt := demo_runtime)
         demo_df body g).1
      ≠ Ok (404%nat, error_body (lit "No songs found for mood '" ++ m' ++ lit "'.")).
Proof.
  apply (no_songs_branch_unreachable (ucd := unicode_fragment)
           (rt := demo_runtime) demo_df (lit "Happy")).
  apply (bool_decide_unpack _). vm_compute. exact I.
Defined.

(** C1 as stated fails: the query " song a" is stripped to "song a", which
    finds "Song A", and the record named " song a", the very name that was
    queried, is recommended. *)
Lemma queried_name_recommended_counterexample :
  let q := lit " song a" in
  recommend_songs_by_song (ucd := unicode_fragment) (rt := demo_runtime)
    padded_df (json_body "song" (JStr q)) 0%nat
  = (Ok (200%nat, song_ok_body (lit "song a") (lit "Happy") [q]), 1%nat)
  ∧ (∃ r, r ∈ padded_df ∧ song_name r = q)
  ∧ ¬ Forall (λ name, py_lower (ucd := unicode_fragment) name
                      ≠ py_lower (ucd := unicode_fragment) q) [q].
Proof.
  intros q. split; [reflexivity|]. split.
  - exists (demo_song " song a" (CStr (lit "Happy")) 70).
    split; [|reflexivity]. apply (list_elem_of_lookup_2 _ 2). reflexivity.
  - intros H. apply Forall_inv in H. by apply H.
Qed.

(** C1 (amended) on the example data: the query " SONG A" is answered with
    three songs of mood "Happy", none of them "Song A". *)
Lemma recommendations_sound_witness :
  let b := song_ok_body (lit "SONG A") (lit "Happy")
             [lit "Song F"; lit "Song C"; lit "Song B"] in
  ∃ song_input predicted_mood recommendations,
    b = song_ok_body song_input predicted_mood recommendations
    ∧ request_field (ucd := unicode_fragment) (lit "song")
        (json_body "song" (JStr (lit " SONG A"))) = Ok song_input
    ∧ (∀ q, has_string_field (lit "song") (json_body "song" (JStr (lit " SONG A"))) q
            → song_input = py_strip (ucd := unicode_fragment) q)
    ∧ predict_mood (ucd := unicode_fragment) (rt := demo_runtime)
        (songs_by_name (ucd := unicode_fragment) demo_df song_input)
      = Ok predicted_mood
    ∧ Forall (λ name,
        (∃ r, r ∈ demo_df ∧ song_name r = name ∧ mood r = CStr predicted_mood)
        ∧ py_lower (ucd := unicode_fragment) name
          ≠ py_lower (ucd := unicode_fragment) song_input) recommendations.
Proof.
  intros b.
  apply (recommendations_sound (ucd := unicode_fragment) (rt := demo_runtime)
           demo_df (json_body "song" (JStr (lit " SONG A"))) 2%nat b 3%nat).
  vm_compute. reflexivity.
Defined.

(** C2 on the example data: the pool of "Sad" has two records and both are
    returned. *)
Lemma sample_count_bounds_witness :
  let b := mood_ok_body (lit "Sad") [lit "Song E"; lit "song a"] in
  ∃ (m song_input : str) (names : list str),
    b = ok_body RecommendMood m song_input names
    ∧ let n := length (candidate_pool (ucd := unicode_fragment)
                         RecommendMood demo_df m song_input) in
      ((5 `min` n) ≤ length names ≤ (8 `min` n)
       ∧ (n < 5 → length names = n))%nat.
Proof.
  intros b.
  apply (sample_count_bounds (ucd := unicode_fragment) (rt := demo_runtime)
           RecommendMood demo_df (json_body "mood" (JStr (lit "sad"))) 0%nat b 1%nat
           demo_randint_in_range demo_np_choice_sized).
  vm_compute. reflexivity.
Defined.

(** C6 on the example data: the generator states 0 and 4 both draw five. *)
Lemma sampling_deterministic_witness :
  (sample_names (rt := demo_runtime) demo_df 0%nat).1
  = (sample_names (rt := demo_runtime) demo_df 4%nat).1
  ∧ (sample_names (rt := demo_runtime) demo_df 0%nat).1
    = (λ picked : list (Song Z), song_name <$> picked)
        <$> take_rows demo_df
              (np_choice (Runtime := demo_runtime) 42 (length demo_df)
                 (drawn_count (rt := demo_runtime) demo_df 0%nat)).
Proof.
  apply (sampling_deterministic (rt := demo_runtime) demo_df 0%nat 4%nat).
  vm_compute. reflexivity.
Defined.

(** C8 as stated fails: the query " Song A" has the name of the first
    record, which the classifier calls "Sad"; the handler strips the query,
    finds the second record instead and answers with its mood, "Happy". *)
Lemma first_match_of_query_counterexample :
  let q := lit " Song A" in
  ∃ r rest,
    padded_df = r :: rest
    ∧ py_lower (ucd := unicode_fragment) (song_name r)
      = py_lower (ucd := unicode_fragment) q
    ∧ classify (ucd := unicode_fragment) (rt := demo_runtime) (features r)
      = Ok (lit "Sad")
    ∧ recommend_songs_by_song (ucd := unicode_fragment) (rt := demo_runtime)
        padded_df (json_body "song" (JStr q)) 0%nat
      = (Ok (200%nat, song_ok_body (lit "Song A") (lit "Happy") [lit " song a"]),
         1%nat).
Proof. intros q. eexists _, _. repeat split. Qed.

(** C8 (amended) on the example data: "Song A" precedes "song a", and the
    query " SONG A" is classified on the features of "Song A". *)
Lemma first_match_classified_witness :
  ∃ pre r post,
    demo_df = pre ++ r :: post
    ∧ py_lower (ucd := unicode_fragment) (song_name r)
      = py_lower (ucd := unicode_fragment)
          (py_strip (ucd := unicode_fragment) (lit " SONG A"))
    ∧ Forall (λ x, py_lower (ucd := unicode_fragment) (song_name x)
                   ≠ py_lower (ucd := unicode_fragment)
                       (py_strip (ucd := unicode_fragment) (lit " SONG A"))) pre
    ∧ let prediction : pyresult str :=
        code ← model_predict (Runtime := demo_runtime)
                 [valence r; danceability r; energy r; tempo r;
                  acousticness r; liveness r];
        label ← le_inverse_transform (Runtime := demo_runtime) code;
        mret (py_capitalize (ucd := unicode_fragment)
                (py_strip (ucd := unicode_fragment) label)) in
      predict_mood (ucd := unicode_fragment) (rt := demo_runtime)
        (songs_by_name (ucd := unicode_fragment) demo_df
           (py_strip (ucd := unicode_fragment) (lit " SONG A")))
      = prediction
      ∧ recommend_songs_by_song (ucd := unicode_fragment) (rt := demo_runtime)
          demo_df (json_body "song" (JStr (lit " SONG A"))) 2%nat
        = respond_prediction (ucd := unicode_fragment) (rt := demo_runtime) demo_df
            (py_strip (ucd := unicode_fragment) (lit " SONG A")) prediction 2%nat
      ∧ match prediction with
        | Raise e =>
          recommend_songs_by_song (ucd := unicode_fragment) (rt := demo_runtime)
            demo_df (json_body "song" (JStr (lit " SONG A"))) 2%nat
          = (Ok (500%nat, error_body (lit "Prediction failed: " ++ exn_str e)), 2%nat)
        | Ok p =>
          recommend_songs_by_song (ucd := unicode_fragment) (rt := demo_runtime)
            demo_df (json_body "song" (JStr (lit " SONG A"))) 2%nat
          = (Ok (404%nat, error_body (lit "No recommendations found for mood '"
                                      ++ p ++ lit "'.")), 2%nat)
          ∨ ∃ names : pyresult (list str),
              recommend_songs_by_song (ucd := unicode_fragment) (rt := demo_runtime)
                demo_df (json_body "song" (JStr (lit " SONG A"))) 2%nat
              = ((λ recs, (200%nat,
                           song_ok_body
                             (py_strip (ucd := unicode_fragment) (lit " SONG A"))
                             p recs)) <$> names,
                 (randint (Runtime := demo_runtime) 5 8 2%nat).2)
        end.
Proof.
  apply (first_match_classified (ucd := unicode_fragment) (rt := demo_runtime)
           demo_df (json_body "song" (JStr (lit " SONG A"))) 2%nat (lit " SONG A")).
  - exists [(lit "song", JStr (lit " SONG A"))]. split; reflexivity.
  - vm_compute. discriminate.
  - vm_compute. discriminate.
Defined.

(** * Further properties of the service *)

From stdpp Require Import sorting.
Local Open Scope N_scope.

(** ** GET /api/moods *)

Lemma str_leb_refl (a : str) : str_leb a a = true.
Proof.
  induction a as [|x a IH]; simpl; [done|]. by rewrite N.ltb_irrefl.
Qed.

Lemma str_leb_total (a b : str) : str_leb a b = true ∨ str_leb b a = true.
Proof.
  revert b. induction a as [|x a IH]; intros [|y b]; simpl; auto.
  destruct (N.ltb_spec x y); [by left|].
  destruct (N.ltb_spec y x); [by right|]. apply IH.
Qed.

Lemma str_leb_trans (a b c : str) :
  str_leb a b = true → str_leb b c = true → str_leb a c = true.
Proof.
  revert b c. induction a as [|x a IH]; intros [|y b] [|z c]; simpl; try done.
  destruct (N.ltb_spec x y), (N.ltb_spec y x), (N.ltb_spec y z),
    (N.ltb_spec z y), (N.ltb_spec x z), (N.ltb_spec z x);
    try done; try lia. apply IH.
Qed.

Lemma str_leb_antisym (a b : str) :
  str_leb a b = true → str_leb b a = true → a = b.
Proof.
  revert b. induction a as [|x a IH]; intros [|y b]; simpl; try done.
  destruct (N.ltb_spec x y), (N.ltb_spec y x); try done; try lia.
  intros Hab Hba. f_equal; [lia|by apply IH].
Qed.

Lemma str_le_transitive : Transitive str_le.
Proof. intros a b c. apply str_leb_trans. Qed.

Lemma insert_sorted_perm (x : str) (l : list str) : insert_sorted x l ≡ₚ x :: l.
Proof.
  induction l as [|y l IH]; simpl; [done|].
  destruct (str_leb x y); [done|]. rewrite IH. apply Permutation_swap.
Qed.

Lemma sorted_perm (l : list str) : sorted l ≡ₚ l.
Proof.
  unfold sorted. induction l as [|x l IH]; simpl; [done|].
  by rewrite insert_sorted_perm, IH.
Qed.

Lemma insert_sorted_Sorted (x : str) (l : list str) :
  Sorted str_le l → Sorted str_le (insert_sorted x l).
Proof.
  induction 1 as [|y l Hl IH Hhd]; simpl; [by repeat constructor|].
  destruct (str_leb x y) eqn:Hxy.
  - constructor; [by constructor|]. by constructor.
  - constructor; [done|].
    assert (str_le y x) as Hyx.
    { destruct (str_leb_total x y) as [H|H]; [congruence|done]. }
    destruct Hhd as [|z l' Hyz]; simpl; [by constructor|].
    destruct (str_leb x z); by constructor.
Qed.

Lemma sorted_Sorted (l : list str) : Sorted str_le (sorted l).
Proof.
  unfold sorted. induction l as [|x l IH]; simpl; [constructor|].
  by apply insert_sorted_Sorted.
Qed.

Lemma unique_NoDup (l : list str) : NoDup (unique l).
Proof.
  induction l as [|x l IH]; simpl; constructor.
  - rewrite list_elem_of_filter. by intros [? _].
  - by apply NoDup_filter.
Qed.

Section MoodListing.
Context {num : Type}.
Implicit Types (df : list (Song num)).

(** X1: GET /api/moods answers 200 with a list in ascending order, without
    repetition, that holds exactly the strings found in the mood column. *)
Theorem available_moods_listing df :
  ∃ ms, get_available_moods df
        = (200%nat, JObj [(lit "available_moods", JArr (JStr <$> ms))])
    ∧ StronglySorted str_le ms
    ∧ NoDup ms
    ∧ ∀ m, m ∈ ms ↔ ∃ r, r ∈ df ∧ mood r = CStr m.
Proof.
  exists (available_moods df). split; [done|]. split; [|split].
  - apply (@Sorted_StronglySorted _ _ str_le_transitive), sorted_Sorted.
  - unfold available_moods. rewrite sorted_perm. apply unique_NoDup.
  - intros m. apply elem_of_available_moods.
Qed.
End MoodListing.

(** ** Sampling without failure, and without repetition *)

Section SamplingContracts.
Context {ucd : UnicodeData} {num : Type} {rt : Runtime num}.
Implicit Types (df pool : list (Song num)) (body : option json) (g : rng).

Lemma take_rows_in_range pool idx :
  Forall (λ i, (i < length pool)%nat) idx → ∃ picked, take_rows pool idx = Ok picked.
Proof.
  intros Hidx. unfold take_rows.
  destruct (mapM_is_Some_2 (λ i, pool !! i) idx) as [picked ->]; [|by eexists].
  eapply Forall_impl; [exact Hidx|]. intros i Hi. by apply lookup_lt_is_Some_2.
Qed.

Lemma sample_names_succeeds pool g :
  np_choice_in_range →
  ∃ names, sample_names pool g = (Ok names, (randint 5 8 g).2).
Proof.
  intros Hc. rewrite sample_names_eq. unfold sample.
  rewrite decide_True by (unfold drawn_count; lia).
  destruct (take_rows_in_range pool
              (np_choice 42 (length pool) (drawn_count pool g))) as [picked ->].
  { apply Hc. unfold drawn_count. lia. }
  by eexists.
Qed.

Lemma lookups_of_all_positions pool :
  seq 0 (length pool) ≫= (λ i, option_list (pool !! i)) = pool.
Proof.
  induction pool as [|r pool IH] using rev_ind; [done|].
  rewrite length_app, Nat.add_comm. simpl length.
  rewrite seq_S, bind_app, bind_singleton. simpl.
  rewrite list_lookup_middle by done. simpl. f_equal.
  etrans; [|exact IH]. apply Forall_bind_ext, Forall_forall.
  intros i Hi%elem_of_seq. by rewrite lookup_app_l by lia.
Qed.

Lemma take_rows_submseteq pool idx picked :
  NoDup idx → take_rows pool idx = Ok picked → picked ⊆+ pool.
Proof.
  intros Hnd. unfold take_rows.
  destruct (mapM _ idx) as [l|] eqn:Hm; [|done]. intros [= ->].
  apply mapM_Some_1 in Hm.
  assert (Forall (λ i, (i < length pool)%nat) idx) as Hin.
  { induction Hm as [|i r idx picked Hi _ IH]; constructor.
    - by apply lookup_lt_Some in Hi.
    - apply IH. by inversion Hnd. }
  assert (picked = idx ≫= (λ i, option_list (pool !! i))) as ->.
  { clear Hnd Hin. induction Hm as [|i r idx picked Hi _ IH]; [done|].
    rewrite bind_cons, Hi. simpl. by f_equal. }
  cut (idx ≫= (λ i, option_list (pool !! i))
       ⊆+ seq 0 (length pool) ≫= (λ i, option_list (pool !! i))).
  { by rewrite lookups_of_all_positions. }
  apply bind_submseteq, NoDup_submseteq; [done|].
  intros i Hi. apply elem_of_seq. split; [lia|]. simpl.
  by apply (proj1 (Forall_forall _ _) Hin).
Qed.

(** X2: under the promise that numpy draws no position twice, a 200 answer
    of either route never repeats a row: the returned names form a
    sub-multiset of the names of the candidate pool. *)
Theorem recommendations_without_repetition (ep : endpoint) df body g b g' :
  np_choice_distinct →
  post ep df body g = (Ok (200%nat, b), g') →
  ∃ (m song_input : str) (names : list str),
    b = ok_body ep m song_input names
    ∧ names ⊆+ (song_name <$> candidate_pool ep df m song_input).
Proof.
  intros Hd H.
  assert (∀ pool names g1, sample_names pool g = (Ok names, g1)
            → names ⊆+ (song_name <$> pool)) as Hsub.
  { intros pool names g1. rewrite sample_names_eq. unfold sample.
    destruct (decide _) as [Hle|]; [|done].
    destruct (take_rows _ _) as [picked|] eqn:Ht; [|done]. intros [= <- _].
    apply fmap_submseteq. eapply take_rows_submseteq; [|exact Ht]. by apply Hd. }
  destruct ep; simpl in H.
  - apply recommend_songs_by_mood_200 in H as (stripped & names & _ & _ & Hs & ->).
    exists (py_capitalize stripped), [], names. split; [done|]. by eapply Hsub.
  - apply recommend_songs_by_song_200 in H as (song_input & p & names & _ & _ & Hs & ->).
    exists p, song_input, names. split; [done|]. by eapply Hsub.
Qed.
End SamplingContracts.

(** ** When the handlers raise, and what they answer otherwise *)

Section HandlerCases.
Context {ucd : UnicodeData} {num : Type} {rt : Runtime num}.
Implicit Types (df pool : list (Song num)) (body : option json) (g : rng).

Lemma request_field_ill_typed key body :
  ill_typed key body → ∃ e, request_field key body = Raise e.
Proof.
  intros (v & -> & Ht & Hv). unfold request_field, get_json_or_empty.
  rewrite Ht. destruct v as [|b|z|q|s|l|o]; try (by eexists).
  destruct Hv as (w & Hw & Hns). unfold py_get. rewrite Hw. simpl.
  destruct w as [|b|z|q|s|l|o']; try (by eexists). by destruct (Hns s).
Qed.

Lemma request_field_Ok_or_ill_typed key body :
  (∃ s, request_field key body = Ok s) ∨ ill_typed key body.
Proof.
  destruct body as [v|]; [|left; by eexists].
  destruct (truthy v) eqn:Ht.
  2:{ left. unfold request_field, get_json_or_empty. rewrite Ht. by eexists. }
  destruct v as [|b|z|q|s|l|o]; try (right; eexists; by repeat split).
  destruct (dict_lookup key o) as [w|] eqn:Hw.
  - destruct w as [|b|z|q|s|l|o'];
      try (right; eexists; repeat split; try done;
           eexists; split; [exact Hw|]; done).
    left. unfold request_field, get_json_or_empty. rewrite Ht.
    unfold py_get. rewrite Hw. by eexists.
  - left. unfold request_field, get_json_or_empty. rewrite Ht.
    unfold py_get. rewrite Hw. by eexists.
Qed.

(** The song route once the field is read. *)
Lemma recommend_songs_by_song_field df body g song_input :
  request_field (lit "song") body = Ok song_input →
  recommend_songs_by_song df body g
  = if is_empty song_input
    then (Ok (400%nat, error_body (lit "Song name is required.")), g)
    else match songs_by_name df song_input with
         | [] => (Ok (404%nat, error_body (lit "Song '" ++ song_input
                                            ++ lit "' not found.")), g)
         | r :: _ => respond_prediction df song_input (classify (features r)) g
         end.
Proof.
  intros Hf. unfold recommend_songs_by_song. unfold request_field in Hf.
  rewrite Hf. destruct (is_empty song_input); [done|].
  by destruct (songs_by_name df song_input).
Qed.

(** The mood route once the field is read. *)
Lemma recommend_songs_by_mood_field df body g stripped :
  request_field (lit "mood") body = Ok stripped →
  let m := py_capitalize stripped in
  recommend_songs_by_mood df body g
  = if is_empty m
    then (Ok (400%nat, error_body (lit "Mood is required.")), g)
    else if decide (m ∉ available_moods df)
    then (Ok (404%nat, error_body (lit "Mood '" ++ m ++ lit "' not found.")), g)
    else let '(names, g') := sample_names (songs_by_mood df m) g in
         ((λ songs, (200%nat, mood_ok_body m songs)) <$> names, g').
Proof.
  intros Hf m. unfold recommend_songs_by_mood. unfold request_field in Hf.
  rewrite Hf. fold m. destruct (is_empty m); [done|].
  destruct (decide _) as [|Hin]; [done|]. apply dec_stable in Hin.
  pose proof (songs_by_mood_nonempty _ _ Hin).
  by destruct (songs_by_mood df m).
Qed.

Lemma respond_prediction_answers df song_input prediction g :
  np_choice_in_range →
  ∃ st b g', respond_prediction df song_input prediction g = (Ok (st, b), g').
Proof.
  intros Hc. unfold respond_prediction. destruct prediction as [p|e]; [|by eauto].
  destruct (is_empty _); [by eauto|].
  destruct (sample_names_succeeds (mood_songs df p song_input) g Hc) as [names ->].
  simpl. by eauto.
Qed.

(** X3: under the promise that numpy draws positions of the population, a
    handler raises exactly when the body is a truthy JSON value that is not an
    object, or an object whose field is not a string; on every other body it
    returns a response. *)
Theorem post_raises_iff (ep : endpoint) df body g :
  np_choice_in_range →
  (∃ e g', post ep df body g = (Raise e, g'))
  ↔ ill_typed (required_field ep) body.
Proof.
  intros Hc. split.
  - intros (e & g' & Hr).
    destruct (request_field_Ok_or_ill_typed (required_field ep) body)
      as [[s Hs]|Hi]; [|done]. exfalso.
    destruct ep; simpl in *.
    + rewrite (recommend_songs_by_mood_field _ _ _ _ Hs) in Hr.
      destruct (is_empty _); [done|]. destruct (decide _); [done|].
      destruct (sample_names_succeeds (songs_by_mood df (py_capitalize s)) g Hc)
        as [names Hn]. rewrite Hn in Hr. done.
    + rewrite (recommend_songs_by_song_field _ _ _ _ Hs) in Hr.
      destruct (is_empty _); [done|].
      destruct (songs_by_name df s) as [|r rest]; [done|].
      destruct (respond_prediction_answers df s (classify (features r)) g Hc)
        as (st & b & g1 & Hrp). rewrite Hrp in Hr. done.
  - intros Hi. destruct (request_field_ill_typed _ _ Hi) as [e He].
    exists e, g. unfold request_field in He.
    destruct ep; simpl in *;
      unfold recommend_songs_by_mood, recommend_songs_by_song; by rewrite He.
Qed.

(** X4: a response is either a 200 answer with the body of the route, for
    which the global generator has drawn once, or an error answer with status
    400 or 404 (or 500, on the song route only) and a body holding one
    "error" message, for which the generator is left as it was. *)
Theorem post_response_shape (ep : endpoint) df body g st b g' :
  post ep df body g = (Ok (st, b), g') →
  (st = 200%nat ∧ g' = (randint 5 8 g).2
   ∧ ∃ (m song_input : str) (names : list str), b = ok_body ep m song_input names)
  ∨ ((st = 400%nat ∨ st = 404%nat ∨ (st = 500%nat ∧ ep = RecommendSong))
     ∧ g' = g ∧ ∃ msg, b = error_body msg).
Proof.
  intros H.
  destruct (request_field_Ok_or_ill_typed (required_field ep) body)
    as [[s Hs]|Hi].
  2:{ destruct (request_field_ill_typed _ _ Hi) as [e He].
      unfold request_field in He.
      destruct ep; simpl in *;
        unfold recommend_songs_by_mood, recommend_songs_by_song in H;
        by rewrite He in H. }
  destruct ep; simpl in *.
  - rewrite (recommend_songs_by_mood_field _ _ _ _ Hs) in H.
    destruct (is_empty _); [injection H as <- <- <-; right; by eauto 8|].
    destruct (decide _); [injection H as <- <- <-; right; by eauto 8|].
    rewrite sample_names_eq in H.
    destruct (sample _ _ 42) as [picked|e]; [|done].
    injection H as <- <- <-. left. repeat split.
    by exists (py_capitalize s), [], (song_name <$> picked).
  - rewrite (recommend_songs_by_song_field _ _ _ _ Hs) in H.
    destruct (is_empty _); [injection H as <- <- <-; right; by eauto 8|].
    destruct (songs_by_name df s) as [|r rest];
      [injection H as <- <- <-; right; by eauto 8|].
    unfold respond_prediction in H.
    destruct (classify (features r)) as [p|e];
      [|injection H as <- <- <-; right; by eauto 10].
    destruct (is_empty _); [injection H as <- <- <-; right; by eauto 8|].
    rewrite sample_names_eq in H.
    destruct (sample _ _ 42) as [picked|e]; [|done].
    injection H as <- <- <-. left. repeat split.
    by exists p, s, (song_name <$> picked).
Qed.
End HandlerCases.

(** ** The answers of the mood route *)

Section MoodRoute.
Context {ucd : UnicodeData} {num : Type} {rt : Runtime num}.
Implicit Types (df pool : list (Song num)) (body : option json) (g : rng).

Lemma sampled_from_pool pool g names g' :
  sample_names pool g = (Ok names, g') →
  Forall (λ name, ∃ r, r ∈ pool ∧ song_name r = name) names.
Proof.
  intros (picked & -> & Hin & _)%sample_names_Ok.
  apply Forall_fmap. eapply Forall_impl; [exact Hin|]. simpl. by eauto.
Qed.

(** X5: in a 200 answer of the mood route the mood is the capitalised,
    stripped query, it is one of the available moods, and every returned name
    is the name of a record of exactly that mood. *)
Theorem mood_recommendations_sound df body g b g' :
  recommend_songs_by_mood df body g = (Ok (200%nat, b), g') →
  ∃ (stripped : str) (songs : list str),
    request_field (lit "mood") body = Ok stripped
    ∧ b = mood_ok_body (py_capitalize stripped) songs
    ∧ py_capitalize stripped ∈ available_moods df
    ∧ Forall (λ name, ∃ r, r ∈ df ∧ song_name r = name
                           ∧ mood r = CStr (py_capitalize stripped)) songs.
Proof.
  intros (stripped & names & Hf & Hin & Hs & ->)%recommend_songs_by_mood_200.
  exists stripped, names. repeat split; try done.
  apply sampled_from_pool in Hs. eapply Forall_impl; [exact Hs|].
  intros name (r & Hr & <-). unfold songs_by_mood in Hr.
  apply list_elem_of_filter in Hr as [Hm Hr]. by eauto.
Qed.

(** X6: under the promise that numpy draws positions of the population, a
    well-typed mood query is answered 200, with songs of the queried mood
    only, exactly when its normal form is not empty and is one of the
    available moods. *)
Theorem mood_accepted_iff df body g (s : str) :
  np_choice_in_range →
  field_reads (lit "mood") body s →
  let m := normalize_query s in
  (∃ songs, recommend_songs_by_mood df body g
            = (Ok (200%nat, mood_ok_body m songs), (randint 5 8 g).2)
     ∧ Forall (λ name, ∃ r, r ∈ df ∧ song_name r = name ∧ mood r = CStr m) songs)
  ↔ m ≠ [] ∧ m ∈ available_moods df.
Proof.
  intros Hc Hr m. pose proof (request_field_reads _ _ _ Hr) as Hf.
  rewrite (recommend_songs_by_mood_field _ _ _ _ Hf).
  fold (normalize_query s). fold m. split.
  - intros (songs & H & _). destruct m as [|c m']; [done|]. split; [done|].
    simpl in H. destruct (decide _) as [|Hin]; [done|]. by apply dec_stable in Hin.
  - intros [Hne Hin]. destruct m as [|c m'] eqn:Hm; [done|]. simpl is_empty. cbv iota.
    rewrite decide_False by (by intros Hn).
    destruct (sample_names_succeeds (songs_by_mood df (c :: m')) g Hc) as [names Hs].
    rewrite Hs. exists names. split; [done|].
    apply sampled_from_pool in Hs. eapply Forall_impl; [exact Hs|].
    intros name (r & Hr' & <-). unfold songs_by_mood in Hr'.
    apply list_elem_of_filter in Hr' as [Hm' Hr']. by eauto.
Qed.
End MoodRoute.

(** ** The answers of the song route *)

Section SongRoute.
Context {ucd : UnicodeData} {num : Type} {rt : Runtime num}.
Implicit Types (df pool : list (Song num)) (body : option json) (g : rng).

Lemma error_body_inj (a b : str) : error_body a = error_body b → a = b.
Proof. by intros [= ->]. Qed.

Lemma respond_prediction_not_song_not_found df song_input prediction g (x : str) g' :
  respond_prediction df song_input prediction g
  ≠ (Ok (404%nat, error_body (lit "Song '" ++ x ++ lit "' not found.")), g').
Proof.
  unfold respond_prediction. destruct prediction as [p|e].
  - destruct (is_empty _); [done|].
    destruct (sample_names _ g) as [[names|e] g1]; done.
  - intros [= ? _]; lia.
Qed.

Lemma respond_prediction_not_400 df song_input prediction g b g' :
  respond_prediction df song_input prediction g ≠ (Ok (400%nat, b), g').
Proof.
  unfold respond_prediction. destruct prediction as [p|e].
  - destruct (is_empty _); [intros [= ? _]; lia|].
    destruct (sample_names _ g) as [[names|e] g1]; [intros [= ? _]; lia|done].
  - intros [= ? _]; lia.
Qed.

(** X7: a well-typed song query is answered 400 "Song name is required."
    exactly when it is empty after stripping, and 404 "Song '<song>' not
    found." exactly when it is not empty and no record has its name when case
    is ignored. *)
Theorem song_validation df body g (q : str) :
  field_reads (lit "song") body q →
  let song_input := py_strip q in
  (recommend_songs_by_song df body g
     = (Ok (400%nat, error_body (lit "Song name is required.")), g)
   ↔ song_input = [])
  ∧ (recommend_songs_by_song df body g
       = (Ok (404%nat, error_body (lit "Song '" ++ song_input ++ lit "' not found.")), g)
     ↔ song_input ≠ []
       ∧ Forall (λ r, py_lower (song_name r) ≠ py_lower song_input) df).
Proof.
  intros Hr song_input. pose proof (request_field_reads _ _ _ Hr) as Hf.
  rewrite (recommend_songs_by_song_field _ _ _ _ Hf). fold song_input.
  assert (songs_by_name df song_input = []
          ↔ Forall (λ r, py_lower (song_name r) ≠ py_lower song_input) df) as Hnone.
  { unfold songs_by_name. rewrite Forall_forall. split.
    - intros Hnil r Hin Hm.
      assert (r ∈ filter (λ r, py_lower (song_name r) = py_lower song_input) df)
        as Hrf by (by apply list_elem_of_filter).
      rewrite Hnil in Hrf. by apply elem_of_nil in Hrf.
    - intros Hall. destruct (filter _ df) as [|r rest] eqn:Hfl; [done|].
      assert (r ∈ filter (λ r, py_lower (song_name r) = py_lower song_input) df)
        as [Hm Hin]%list_elem_of_filter by (rewrite Hfl; left).
      by destruct (Hall r Hin). }
  destruct song_input as [|c s'] eqn:Hs; simpl is_empty; cbv iota.
  { split; [done|]. split; [intros [= ? _]; lia|by intros [? _]]. }
  destruct (songs_by_name df (c :: s')) as [|r rest] eqn:Hm.
  - split; [split; [intros [= ? _]; lia|done]|].
    split; [intros _; split; [done|by apply Hnone]|done].
  - split.
    + split; [|done]. intros H. by apply respond_prediction_not_400 in H.
    + split.
      * intros H. by apply respond_prediction_not_song_not_found in H.
      * intros [_ Hall]. by apply Hnone in Hall.
Qed.
End SongRoute.

Section SongRouteOutcomes.
Context {ucd : UnicodeData} {num : Type} {rt : Runtime num}.
Implicit Types (df pool : list (Song num)) (body : option json) (g : rng).

Lemma JStr_fmap_inj (a b : list str) : JStr <$> a = JStr <$> b → a = b.
Proof.
  revert b. induction a as [|x a IH]; intros [|y b]; simpl; try done.
  intros [= -> H]. f_equal. by apply IH.
Qed.

Lemma classify_raises (v : list num) (e : exn) :
  classify v = Raise e
  ↔ model_predict v = Raise e
    ∨ ∃ code, model_predict v = Ok code ∧ le_inverse_transform code = Raise e.
Proof.
  unfold classify. destruct (model_predict v) as [code|e1]; simpl.
  - destruct (le_inverse_transform code) as [label|e2] eqn:Hl; simpl.
    + split; [done|]. intros [|(c & [= <-] & ?)]; [done|congruence].
    + split.
      * intros [= ->]. right. by exists code.
      * intros [|(c & [= <-] & ?)]; [done|congruence].
  - split; [intros [= ->]; by left|]. by intros [[= ->]|(c & ? & _)].
Qed.

(** The song route for a query that is read, not empty, and matched. *)
Lemma recommend_songs_by_song_inv df body g st b g' :
  recommend_songs_by_song df body g = (Ok (st, b), g') →
  st ≠ 400%nat →
  (∀ x : str, (st, b) ≠ (404%nat, error_body (lit "Song '" ++ x ++ lit "' not found."))) →
  ∃ song_input r rest,
    request_field (lit "song") body = Ok song_input
    ∧ song_input ≠ []
    ∧ songs_by_name df song_input = r :: rest
    ∧ respond_prediction df song_input (classify (features r)) g = (Ok (st, b), g').
Proof.
  intros H H400 H404.
  destruct (request_field_Ok_or_ill_typed (lit "song") body) as [[s Hs]|Hi].
  2:{ destruct (request_field_ill_typed _ _ Hi) as [e He].
      unfold request_field in He. unfold recommend_songs_by_song in H.
      by rewrite He in H. }
  rewrite (recommend_songs_by_song_field _ _ _ _ Hs) in H.
  destruct s as [|c s']; simpl in H; [injection H as <- _ _; done|].
  destruct (songs_by_name df (c :: s')) as [|r rest] eqn:Hm.
  { injection H as <- <- _. by destruct (H404 (c :: s')). }
  by exists (c :: s'), r, rest.
Qed.

(** X8: the song route answers 500 exactly when the query is matched and the
    model or the label encoder raises on the features of the first matching
    record; the message is "Prediction failed: " followed by [str(e)], and the
    global generator is left as it was. *)
Theorem prediction_failure_iff df body g b g' :
  recommend_songs_by_song df body g = (Ok (500%nat, b), g')
  ↔ ∃ (song_input : str) r rest e,
      request_field (lit "song") body = Ok song_input
      ∧ song_input ≠ []
      ∧ songs_by_name df song_input = r :: rest
      ∧ (model_predict (features r) = Raise e
         ∨ ∃ code, model_predict (features r) = Ok code
                   ∧ le_inverse_transform code = Raise e)
      ∧ b = error_body (lit "Prediction failed: " ++ exn_str e)
      ∧ g' = g.
Proof.
  split.
  - intros H.
    destruct (recommend_songs_by_song_inv _ _ _ _ _ _ H)
      as (song_input & r & rest & Hf & Hne & Hm & Hrp);
      [lia|intros x [= ? _]; lia|].
    clear H. unfold respond_prediction in Hrp.
    destruct (classify (features r)) as [p|e] eqn:Hc.
    + destruct (is_empty _); [injection Hrp as ? _ _; lia|].
      destruct (sample_names _ g) as [[names|e] g1]; [injection Hrp as ? _ _; lia|done].
    + injection Hrp as <- <-. apply classify_raises in Hc.
      by exists song_input, r, rest, e.
  - intros (song_input & r & rest & e & Hf & Hne & Hm & Hc & -> & ->).
    rewrite (recommend_songs_by_song_field _ _ _ _ Hf).
    destruct song_input as [|c s']; [done|]. simpl is_empty. cbv iota.
    rewrite Hm. apply classify_raises in Hc. unfold respond_prediction.
    by rewrite Hc.
Qed.

(** X9: the song route answers 404 "No recommendations found for mood
    '<mood>'." exactly when the query is matched, the first matching record is
    classified as that mood, and every record of that mood has the queried
    name when case is ignored. *)
Theorem no_recommendations_iff df body g (p : str) g' :
  recommend_songs_by_song df body g
  = (Ok (404%nat, error_body (lit "No recommendations found for mood '" ++ p
                              ++ lit "'.")), g')
  ↔ ∃ (song_input : str) r rest,
      request_field (lit "song") body = Ok song_input
      ∧ song_input ≠ []
      ∧ songs_by_name df song_input = r :: rest
      ∧ classify (features r) = Ok p
      ∧ Forall (λ x, mood x = CStr p
                     → py_lower (song_name x) = py_lower song_input) df
      ∧ g' = g.
Proof.
  assert (∀ song_input : str,
            mood_songs df p song_input = []
            ↔ Forall (λ x, mood x = CStr p
                           → py_lower (song_name x) = py_lower song_input) df)
    as Hpool.
  { intros song_input. unfold mood_songs. rewrite Forall_forall. split.
    - intros Hnil x Hin Hm.
      destruct (decide (py_lower (song_name x) = py_lower song_input)) as [|Hn];
        [done|].
      assert (x ∈ filter (λ r, mood r = CStr p
                ∧ py_lower (song_name r) ≠ py_lower song_input) df) as Hx
        by (by apply list_elem_of_filter).
      rewrite Hnil in Hx. by apply elem_of_nil in Hx.
    - intros Hall. destruct (filter _ df) as [|x rest] eqn:Hfl; [done|].
      assert (x ∈ filter (λ r, mood r = CStr p
                ∧ py_lower (song_name r) ≠ py_lower song_input) df)
        as [[Hm Hn] Hin]%list_elem_of_filter by (rewrite Hfl; left).
      by destruct Hn, (Hall x Hin). }
  split.
  - intros H.
    destruct (recommend_songs_by_song_inv _ _ _ _ _ _ H)
      as (song_input & r & rest & Hf & Hne & Hm & Hrp);
      [lia|intros x [= Hx]; done|].
    clear H. unfold respond_prediction in Hrp.
    destruct (classify (features r)) as [p'|e] eqn:Hc;
      [|injection Hrp as ? _ _; lia].
    destruct (mood_songs df p' song_input) as [|x pool] eqn:Hp; simpl in Hrp.
    + injection Hrp as Hmsg <-.
      apply app_inv_tail in Hmsg as ->.
      exists song_input, r, rest. repeat split; try done. by apply Hpool.
    + destruct (sample_names _ g) as [[names|e] g1];
        [injection Hrp as ? _ _; lia|done].
  - intros (song_input & r & rest & Hf & Hne & Hm & Hc & Hall & ->).
    rewrite (recommend_songs_by_song_field _ _ _ _ Hf).
    destruct song_input as [|c s']; [done|]. simpl is_empty. cbv iota.
    rewrite Hm. unfold respond_prediction. rewrite Hc.
    apply Hpool in Hall. by rewrite Hall.
Qed.

(** X10: the recommendations do not depend on the case or on the surrounding
    whitespace of the song query: two well-typed, non-empty queries that agree
    once stripped and lowered get the same predicted mood and the same
    recommendations, each answer echoing its own query. *)
Theorem song_query_case_insensitive df body1 body2 g (q1 q2 p : str)
    (names : list str) g' :
  has_string_field (lit "song") body1 q1 →
  has_string_field (lit "song") body2 q2 →
  py_strip q1 ≠ [] → py_strip q2 ≠ [] →
  py_lower (py_strip q1) = py_lower (py_strip q2) →
  recommend_songs_by_song df body1 g
    = (Ok (200%nat, song_ok_body (py_strip q1) p names), g') →
  recommend_songs_by_song df body2 g
    = (Ok (200%nat, song_ok_body (py_strip q2) p names), g').
Proof.
  intros H1 H2 Hn1 Hn2 Hl.
  rewrite (recommend_songs_by_song_field _ _ _ _ (request_field_string _ _ _ H1)).
  rewrite (recommend_songs_by_song_field _ _ _ _ (request_field_string _ _ _ H2)).
  assert (songs_by_name df (py_strip q1) = songs_by_name df (py_strip q2)) as Hsn.
  { unfold songs_by_name. by rewrite Hl. }
  assert (∀ m, mood_songs df m (py_strip q1) = mood_songs df m (py_strip q2)) as Hms.
  { intros m. unfold mood_songs. by rewrite Hl. }
  destruct (py_strip q1) as [|c1 s1]; [done|].
  destruct (py_strip q2) as [|c2 s2]; [done|]. simpl is_empty. cbv iota.
  rewrite Hsn. destruct (songs_by_name df (c2 :: s2)) as [|r rest];
    [intros [= ? _]; lia|].
  unfold respond_prediction. destruct (classify (features r)) as [p'|e];
    [|intros [= ? _]; lia].
  rewrite Hms. destruct (is_empty _); [intros [= ? _]; lia|].
  destruct (sample_names _ g) as [[names'|e] g1]; [|done].
  intros [= -> Hn ->]. by apply JStr_fmap_inj in Hn as ->.
Qed.
End SongRouteOutcomes.

(** ** Stripping, and normal forms of ASCII strings *)

Section Strip.
Context {ucd : UnicodeData}.
Implicit Types (s t : str) (c : N).

Lemma py_lstrip_suffix s : ∃ pre, s = pre ++ py_lstrip s.
Proof.
  induction s as [|c s [pre IH]]; simpl; [by exists []|].
  destruct (cp_space c); [|by exists []].
  exists (c :: pre). simpl. by f_equal.
Qed.

Lemma py_lstrip_head s c : list.head (py_lstrip s) = Some c → cp_space c = false.
Proof.
  induction s as [|d s IH]; simpl; [done|].
  destruct (cp_space d) eqn:Hd; [done|]. simpl. by intros [= <-].
Qed.

Lemma py_lstrip_id t : (∀ c, list.head t = Some c → cp_space c = false) → py_lstrip t = t.
Proof. destruct t as [|c t]; simpl; [done|]. intros H. by rewrite (H c). Qed.

Lemma py_strip_trimmed s : trimmed (py_strip s).
Proof.
  unfold trimmed, py_strip, py_rstrip. split; intros c.
  - rewrite head_reverse.
    destruct (py_lstrip_suffix (reverse (py_lstrip s))) as [pre Hpre].
    intros Hl. apply (py_lstrip_head s).
    rewrite <- last_reverse, Hpre, last_app, Hl. done.
  - rewrite last_reverse. apply py_lstrip_head.
Qed.

Lemma py_strip_id t : trimmed t → py_strip t = t.
Proof.
  intros [Hh Hl]. unfold py_strip, py_rstrip.
  rewrite (py_lstrip_id t Hh), py_lstrip_id; [apply reverse_involutive|].
  intros c. rewrite head_reverse. apply Hl.
Qed.

(** [strip] leaves no whitespace at either end, for any Unicode data, and so
    stripping twice is stripping once. *)
Lemma py_strip_idemp s : py_strip (py_strip s) = py_strip s.
Proof. apply py_strip_id, py_strip_trimmed. Qed.

Ltac ascii_cases c :=
  unfold cp_space, ascii_isspace, ascii_lo, ascii_up, ascii_isupper, ascii_islower;
  destruct (N.leb_spec 65 c), (N.leb_spec c 90), (N.leb_spec 97 c),
    (N.leb_spec c 122); simpl; try lia;
  repeat match goal with
         | |- context [N.ltb ?a ?b] => destruct (N.ltb_spec a b); try lia
         | |- context [N.leb ?a ?b] => destruct (N.leb_spec a b); try lia
         end; simpl; try done; try lia.

Lemma ascii_lo_bound c : c < 128 → ascii_lo c < 128.
Proof. intros. ascii_cases c. Qed.

Lemma ascii_up_bound c : c < 128 → ascii_up c < 128.
Proof. intros. ascii_cases c. Qed.

Lemma ascii_lo_space c : c < 128 → cp_space (ascii_lo c) = cp_space c.
Proof. intros. ascii_cases c. Qed.

Lemma ascii_up_space c : c < 128 → cp_space (ascii_up c) = cp_space c.
Proof. intros. ascii_cases c. Qed.

Lemma ascii_lo_lo c : ascii_lo (ascii_lo c) = ascii_lo c.
Proof. ascii_cases c. Qed.

Lemma ascii_up_up c : ascii_up (ascii_up c) = ascii_up c.
Proof. ascii_cases c. Qed.

Lemma py_lower_ascii s : is_ascii s → py_lower s = ascii_lo <$> s.
Proof.
  induction 1 as [|c s Hc Hs IH]; [done|].
  rewrite py_lower_cons, IH, fmap_cons. unfold cp_lower.
  destruct (N.ltb_spec c 128); [done|lia].
Qed.

Lemma py_capitalize_ascii s :
  is_ascii s →
  py_capitalize s = match s with [] => [] | c :: r => ascii_up c :: (ascii_lo <$> r) end.
Proof.
  destruct 1 as [|c s Hc Hs]; [done|]. simpl.
  rewrite (py_lower_ascii s Hs). unfold cp_title.
  destruct (N.ltb_spec c 128); [done|lia].
Qed.

Lemma py_capitalize_is_ascii s : is_ascii s → is_ascii (py_capitalize s).
Proof.
  intros Hs. rewrite (py_capitalize_ascii s Hs).
  destruct Hs as [|c s Hc Hs]; [constructor|].
  constructor; [by apply ascii_up_bound|].
  apply Forall_fmap. eapply Forall_impl; [exact Hs|]. apply ascii_lo_bound.
Qed.

Lemma py_capitalize_trimmed s : is_ascii s → trimmed s → trimmed (py_capitalize s).
Proof.
  intros Hs [Hh Hl]. rewrite (py_capitalize_ascii s Hs).
  destruct Hs as [|c s Hc Hs]; [done|]. split; intros d.
  - simpl. intros [= <-]. rewrite ascii_up_space by done. by apply Hh.
  - rewrite last_cons, fmap_last. rewrite last_cons in Hl.
    destruct (list.last s) as [e|] eqn:He; simpl.
    + intros [= <-]. rewrite ascii_lo_space; [by apply Hl|].
      apply last_Some_elem_of in He. by apply (proj1 (Forall_forall _ _) Hs).
    + intros [= <-]. rewrite ascii_up_space by done. by apply Hl.
Qed.

Lemma py_capitalize_idemp_ascii s :
  is_ascii s → py_capitalize (py_capitalize s) = py_capitalize s.
Proof.
  intros Hs. rewrite (py_capitalize_ascii _ (py_capitalize_is_ascii s Hs)).
  rewrite (py_capitalize_ascii s Hs). destruct s as [|c s]; [done|].
  rewrite ascii_up_up. f_equal. rewrite <- list_fmap_compose.
  apply list_fmap_ext. intros i x _. simpl. apply ascii_lo_lo.
Qed.

Lemma normalize_query_fixed s :
  is_ascii s →
  normalize_query (normalize_query s) = normalize_query s
  ∧ trimmed (normalize_query s)
  ∧ is_ascii (normalize_query s).
Proof.
  intros Hs. unfold normalize_query.
  assert (is_ascii (py_strip s)) as Ha by (by apply py_strip_Forall).
  pose proof (py_capitalize_trimmed _ Ha (py_strip_trimmed s)) as Ht.
  split; [|split; [done|by apply py_capitalize_is_ascii]].
  rewrite (py_strip_id _ Ht). by apply py_capitalize_idemp_ascii.
Qed.

(** X12: on ASCII input the normal form of a mood query is a fixed point of
    the normalisation, without whitespace at either end; the same holds for
    the normal form of a mood of the data set. *)
Theorem normalize_query_idemp s :
  is_ascii s →
  normalize_query (normalize_query s) = normalize_query s
  ∧ trimmed (normalize_query s)
  ∧ normalize_query (normalize_dataset s) = normalize_dataset s.
Proof.
  intros Hs. destruct (normalize_query_fixed s Hs) as (Hi & Ht & _).
  repeat split; try done; try apply Ht.
  by rewrite (normalize_dataset_query_ascii s Hs).
Qed.
End Strip.

(** ** Moods of the data set as queries *)

Section MoodQueries.
Context {ucd : UnicodeData} {pd : Pandas} {num : Type} {rt : Runtime num}.
Implicit Types (df raw : list (Song num)) (body : option json) (g : rng).

(** X13: the mood route ignores the case and the surrounding whitespace of an
    ASCII query: two queries that agree once stripped and lowered get the same
    answer. *)
Theorem mood_query_case_insensitive df body1 body2 g (s1 s2 : str) :
  has_string_field (lit "mood") body1 s1 →
  has_string_field (lit "mood") body2 s2 →
  is_ascii s1 → is_ascii s2 →
  py_lower (py_strip s1) = py_lower (py_strip s2) →
  recommend_songs_by_mood df body1 g = recommend_songs_by_mood df body2 g.
Proof.
  intros H1 H2 Ha1 Ha2 Hl.
  rewrite (recommend_songs_by_mood_field _ _ _ _ (request_field_string _ _ _ H1)).
  rewrite (recommend_songs_by_mood_field _ _ _ _ (request_field_string _ _ _ H2)).
  assert (py_capitalize (py_strip s1) = py_capitalize (py_strip s2)) as ->; [|done].
  change (normalize_query s1 = normalize_query s2).
  rewrite <- !normalize_dataset_query_ascii by done.
  unfold normalize_dataset. by rewrite Hl.
Qed.

Lemma preprocessed_mood raw (m : str) :
  Forall (λ r, ascii_cell (mood r)) raw →
  m ∈ available_moods (preprocess raw) →
  ∃ s, is_ascii s ∧ m = normalize_dataset s.
Proof.
  intros Ha (r & Hr & Hm)%elem_of_available_moods.
  unfold preprocess in Hr. apply list_elem_of_fmap in Hr as (r0 & -> & Hr0).
  simpl in Hm. apply (proj1 (Forall_forall _ _) Ha) in Hr0.
  destruct (mood r0) as [s0|]; simpl in *.
  - exists s0. split; [done|]. by injection Hm as <-.
  - rewrite normalize_cell_missing in Hm.
    destruct astype_str_keeps_missing; [done|].
    exists (lit "nan"). split; [|by injection Hm as <-].
    unfold is_ascii. rewrite Forall_forall. intros c Hc.
    assert (bool_decide (Forall (λ c, c < 128) (lit "nan"))) as Hb by done.
    apply bool_decide_unpack in Hb. by apply (proj1 (Forall_forall _ _) Hb).
Qed.

(** X14: under the promise that numpy draws positions of the population,
    every non-empty mood that GET /api/moods lists for an ASCII data set is
    accepted by the mood route as it stands: posting it is answered 200 with
    that very mood. *)
Theorem listed_mood_accepted raw g (m : str) :
  np_choice_in_range →
  Forall (λ r, ascii_cell (mood r)) raw →
  m ∈ available_moods (preprocess raw) →
  m ≠ [] →
  ∃ songs,
    recommend_songs_by_mood (preprocess raw) (Some (JObj [(lit "mood", JStr m)])) g
    = (Ok (200%nat, mood_ok_body m songs), (randint 5 8 g).2).
Proof.
  intros Hc Ha Hin Hne.
  destruct (preprocessed_mood raw m Ha Hin) as (s & Hs & ->).
  assert (has_string_field (lit "mood")
            (Some (JObj [(lit "mood", JStr (normalize_dataset s))]))
            (normalize_dataset s)) as Hf.
  { eexists. split; [done|]. simpl. first [done | by rewrite decide_True]. }
  rewrite (recommend_songs_by_mood_field _ _ _ _ (request_field_string _ _ _ Hf)).
  change (py_capitalize (py_strip (normalize_dataset s)))
    with (normalize_query (normalize_dataset s)).
  rewrite (normalize_dataset_query_ascii s Hs) in *.
  destruct (normalize_query_fixed s Hs) as (-> & _ & _).
  destruct (normalize_query s) as [|c m'] eqn:Hm; [done|]. simpl is_empty. cbv iota.
  rewrite decide_False by (by intros Hn).
  destruct (sample_names_succeeds (songs_by_mood (preprocess raw) (c :: m')) g Hc)
    as [names ->]. by exists names.
Qed.

(** X15: when the installed pandas turns a missing value into the string
    "nan" under [astype(str)], as the versions before 3.0 do, a record whose
    mood is missing is kept under the mood "Nan": "Nan" is one of the
    available moods and the record is in the pool of that mood. *)
Theorem missing_mood_served_as_Nan raw (r0 : Song num) :
  missing_becomes_nan →
  r0 ∈ raw →
  mood r0 = CNaN →
  lit "Nan" ∈ available_moods (preprocess raw)
  ∧ ∃ r, r ∈ songs_by_mood (preprocess raw) (lit "Nan")
         ∧ song_name r = song_name r0 ∧ features r = features r0.
Proof.
  intros Hp Hin Hm.
  assert (set_mood (normalize_cell (mood r0)) r0 ∈ preprocess raw) as Hr.
  { unfold preprocess.
    by apply (list_elem_of_fmap_2 (λ r, set_mood (normalize_cell (mood r)) r)). }
  rewrite Hm, normalize_cell_missing, Hp in Hr. split.
  - apply (proj2 (elem_of_available_moods _ _)).
    exists (set_mood (CStr (lit "Nan")) r0). split; [exact Hr|reflexivity].
  - exists (set_mood (CStr (lit "Nan")) r0). split; [|split; reflexivity].
    unfold songs_by_mood. apply list_elem_of_filter. split; [reflexivity|exact Hr].
Qed.

(** X16: the pool of the song route is the pool of the mood route for the
    predicted mood without the records that have the queried name, in the
    same order. *)
Theorem mood_songs_of_songs_by_mood df (p q : str) :
  mood_songs df p q
  = filter (λ r, py_lower (song_name r) ≠ py_lower q) (songs_by_mood df p)
  ∧ (length (mood_songs df p q)
     + length (filter (λ r, py_lower (song_name r) = py_lower q) (songs_by_mood df p))
     = length (songs_by_mood df p))%nat.
Proof.
  assert (mood_songs df p q
          = filter (λ r, py_lower (song_name r) ≠ py_lower q) (songs_by_mood df p))
    as Heq.
  { unfold mood_songs, songs_by_mood. rewrite list_filter_filter.
    apply list_filter_iff. intros r. tauto. }
  split; [exact Heq|]. rewrite Heq.
  pose proof (filter_app_complement
                (λ r : Song num, py_lower (song_name r) = py_lower q)
                (songs_by_mood df p)) as Hperm.
  apply Permutation_length in Hperm. rewrite length_app in Hperm. lia.
Qed.

(** X17: under the promises on [random.randint] and on numpy's [choice], a
    200 answer of either route lists at least one name and at most eight. *)
Theorem recommendations_nonempty (ep : endpoint) df body g b g' :
  randint_in_range → np_choice_sized →
  post ep df body g = (Ok (200%nat, b), g') →
  ∃ (m song_input : str) (names : list str),
    b = ok_body ep m song_input names
    ∧ (1 ≤ length names ≤ 8)%nat.
Proof.
  intros Hr Hc H.
  assert (∀ pool names g1, pool ≠ [] → sample_names pool g = (Ok names, g1)
            → (1 ≤ length names ≤ 8)%nat) as Hlen.
  { intros pool names g1 Hne Hs.
    destruct (sampled_length pool g names g1 Hr Hc Hs) as [Hb _].
    assert (length pool ≠ 0%nat) by (by destruct pool). lia. }
  destruct ep; simpl in H.
  - apply recommend_songs_by_mood_200 in H as (stripped & names & _ & Hin & Hs & ->).
    exists (py_capitalize stripped), [], names. split; [done|].
    eapply Hlen; [|exact Hs]. by apply songs_by_mood_nonempty.
  - destruct (recommend_songs_by_song_inv _ _ _ _ _ _ H)
      as (song_input & r & rest & _ & _ & _ & Hrp); [lia|intros x [= ? _]; lia|].
    unfold respond_prediction in Hrp.
    destruct (classify (features r)) as [p|e]; [|injection Hrp as ? _ _; lia].
    destruct (mood_songs df p song_input) as [|x pool] eqn:Hp; simpl in Hrp;
      [injection Hrp as ? _ _; lia|].
    destruct (sample_names _ g) as [[names|e] g1] eqn:Hs; [|done].
    injection Hrp as <- <-. exists p, song_input, names. split; [done|].
    eapply Hlen; [|exact Hs]. done.
Qed.
End MoodQueries.

(** ** The echoed query *)

Section Echo.
Context {ucd : UnicodeData} {num : Type} {rt : Runtime num}.
Implicit Types (df : list (Song num)) (body : option json) (g : rng).

Lemma request_field_stripped key body (s : str) :
  request_field key body = Ok s → ∃ q, s = py_strip q.
Proof.
  unfold request_field.
  destruct (py_get _ key _) as [v|e]; [|done]. simpl.
  destruct v as [|b|z|q|t|l|o]; try done. intros [= <-]. by exists t.
Qed.

(** X11: the song name echoed in a 200 answer of the song route is the
    stripped field of the request: it is not empty, carries no whitespace at
    either end, and some record has this name when case is ignored. *)
Theorem echoed_song_input df body g b g' :
  recommend_songs_by_song df body g = (Ok (200%nat, b), g') →
  ∃ (song_input predicted_mood : str) (recommendations : list str),
    b = song_ok_body song_input predicted_mood recommendations
    ∧ request_field (lit "song") body = Ok song_input
    ∧ song_input ≠ []
    ∧ trimmed song_input
    ∧ ∃ r, r ∈ df ∧ py_lower (song_name r) = py_lower song_input.
Proof.
  intros H.
  destruct (recommend_songs_by_song_inv _ _ _ _ _ _ H)
    as (song_input & r & rest & Hf & Hne & Hm & _); [lia|intros x [= ? _]; lia|].
  apply recommend_songs_by_song_200 in H as (si & p & names & Hf' & _ & _ & ->).
  assert (si = song_input) as -> by congruence.
  exists song_input, p, names. repeat split; try done.
  - destruct (request_field_stripped _ _ _ Hf) as [q ->].
    intros c. apply py_strip_trimmed.
  - destruct (request_field_stripped _ _ _ Hf) as [q ->].
    intros c. apply py_strip_trimmed.
  - exists r.
    assert (r ∈ songs_by_name df song_input) as Hr by (rewrite Hm; left).
    unfold songs_by_name in Hr. apply list_elem_of_filter in Hr as [? ?]. done.
Qed.
End Echo.

(** ** A mood that is listed but cannot be queried *)

Section BlankMood.
Context {ucd : UnicodeData} {pd : Pandas} {num : Type} {rt : Runtime num}.
Implicit Types (raw : list (Song num)) (g : rng).

(** X18: a record whose mood consists of whitespace only is stored under the
    empty mood: the empty string is one of the available moods and has a
    non-empty pool, yet posting it to the mood route is answered 400 "Mood is
    required.". *)
Theorem blank_mood_listed_but_rejected raw (r0 : Song num) (s : str) g :
  r0 ∈ raw →
  mood r0 = CStr s →
  py_strip s = [] →
  [] ∈ available_moods (preprocess raw)
  ∧ songs_by_mood (preprocess raw) [] ≠ []
  ∧ recommend_songs_by_mood (preprocess raw) (Some (JObj [(lit "mood", JStr [])])) g
    = (Ok (400%nat, error_body (lit "Mood is required.")), g).
Proof.
  intros Hin Hm Hs.
  assert (set_mood (normalize_cell (mood r0)) r0 ∈ preprocess raw) as Hr.
  { unfold preprocess.
    by apply (list_elem_of_fmap_2 (λ r, set_mood (normalize_cell (mood r)) r)). }
  rewrite Hm in Hr. unfold normalize_cell in Hr. simpl in Hr. rewrite Hs in Hr.
  assert ([] ∈ available_moods (preprocess raw)) as Ha.
  { apply (proj2 (elem_of_available_moods _ _)). eexists. split; [exact Hr|done]. }
  split; [exact Ha|]. split; [by apply songs_by_mood_nonempty|].
  apply (post_empty_field RecommendMood).
  rewrite (request_field_string _ _ []); [done|].
  eexists. split; [done|]. simpl. first [done | by rewrite decide_True].
Qed.
End BlankMood.

(** ** The further properties on the example data *)

Lemma demo_np_choice_in_range : np_choice_in_range (H := demo_runtime).
Proof.
  intros seed n k Hk. simpl. apply Forall_reverse, Forall_seq. intros j Hj. lia.
Qed.

Lemma demo_np_choice_distinct : np_choice_distinct (H := demo_runtime).
Proof. intros seed n k _. simpl. rewrite reverse_Permutation. apply NoDup_seq. Qed.

Section ExtraExamples.
#[local] Existing Instances unicode_fragment pandas_before_3 demo_runtime.

Lemma is_ascii_decide (s : str) : bool_decide (Forall (λ c, c < 128) s) → is_ascii s.
Proof. apply bool_decide_unpack. Qed.

(** X2 on the example data: the two songs of mood "Sad". *)
Lemma recommendations_without_repetition_witness :
  let b := mood_ok_body (lit "Sad") [lit "Song E"; lit "song a"] in
  ∃ (m song_input : str) (names : list str),
    b = ok_body RecommendMood m song_input names
    ∧ names ⊆+ (song_name <$> candidate_pool RecommendMood demo_df m song_input).
Proof.
  intros b.
  apply (recommendations_without_repetition (rt := demo_runtime) RecommendMood demo_df
           (json_body "mood" (JStr (lit "sad"))) 0%nat b 1%nat
           demo_np_choice_distinct).
  vm_compute. reflexivity.
Defined.

(** X3 on the example data: a number in place of the mood. *)
Lemma post_raises_iff_witness :
  (∃ e g', post (rt := demo_runtime) RecommendMood demo_df
             (json_body "mood" (JInt 5)) 0%nat = (Raise e, g'))
  ↔ ill_typed (required_field RecommendMood) (json_body "mood" (JInt 5)).
Proof.
  apply (post_raises_iff (rt := demo_runtime) RecommendMood demo_df
           (json_body "mood" (JInt 5)) 0%nat demo_np_choice_in_range).
Defined.

(** X4 on the example data: the answer to the song query " SONG A". *)
Lemma post_response_shape_witness :
  let b := song_ok_body (lit "SONG A") (lit "Happy")
             [lit "Song F"; lit "Song C"; lit "Song B"] in
  (200 = 200 ∧ 3 = (randint (Runtime := demo_runtime) 5 8 2%nat).2
   ∧ ∃ (m song_input : str) (names : list str),
       b = ok_body RecommendSong m song_input names)%nat
  ∨ ((200 = 400 ∨ 200 = 404 ∨ (200 = 500 ∧ RecommendSong = RecommendSong))
     ∧ 3 = 2 ∧ ∃ msg, b = error_body msg)%nat.
Proof.
  intros b.
  apply (post_response_shape (rt := demo_runtime) RecommendSong demo_df
           (json_body "song" (JStr (lit " SONG A"))) 2%nat 200%nat b 3%nat).
  vm_compute. reflexivity.
Defined.

(** X5 on the example data: the answer to the mood query " hAPPY". *)
Lemma mood_recommendations_sound_witness :
  let b := mood_ok_body (lit "Happy")
             [lit "Song F"; lit "Song C"; lit "Song B"; lit "Song A"] in
  ∃ (stripped : str) (songs : list str),
    request_field (lit "mood") (json_body "mood" (JStr (lit " hAPPY"))) = Ok stripped
    ∧ b = mood_ok_body (py_capitalize stripped) songs
    ∧ py_capitalize stripped ∈ available_moods demo_df
    ∧ Forall (λ name, ∃ r, r ∈ demo_df ∧ song_name r = name
                           ∧ mood r = CStr (py_capitalize stripped)) songs.
Proof.
  intros b.
  apply (mood_recommendations_sound (rt := demo_runtime) demo_df
           (json_body "mood" (JStr (lit " hAPPY"))) 0%nat b 1%nat).
  vm_compute. reflexivity.
Defined.

(** X6 on the example data: " hAPPY" is accepted. *)
Lemma mood_accepted_iff_witness :
  let m := normalize_query (lit " hAPPY") in
  (∃ songs, recommend_songs_by_mood (rt := demo_runtime) demo_df
              (json_body "mood" (JStr (lit " hAPPY"))) 0%nat
            = (Ok (200%nat, mood_ok_body m songs), (randint (Runtime := demo_runtime) 5 8 0%nat).2)
     ∧ Forall (λ name, ∃ r, r ∈ demo_df ∧ song_name r = name ∧ mood r = CStr m) songs)
  ↔ m ≠ [] ∧ m ∈ available_moods demo_df.
Proof.
  apply (mood_accepted_iff (rt := demo_runtime) demo_df (json_body "mood" (JStr (lit " hAPPY"))) 0%nat
           (lit " hAPPY") demo_np_choice_in_range).
  right. exists [(lit "mood", JStr (lit " hAPPY"))]. split; reflexivity.
Defined.

(** X7 on the example data: a song that is not in the data set. *)
Lemma song_validation_witness :
  let song_input := py_strip (lit "No Such Song ") in
  (recommend_songs_by_song (rt := demo_runtime) demo_df (json_body "song" (JStr (lit "No Such Song "))) 0%nat
     = (Ok (400%nat, error_body (lit "Song name is required.")), 0%nat)
   ↔ song_input = [])
  ∧ (recommend_songs_by_song (rt := demo_runtime) demo_df
       (json_body "song" (JStr (lit "No Such Song "))) 0%nat
       = (Ok (404%nat, error_body (lit "Song '" ++ song_input ++ lit "' not found.")),
          0%nat)
     ↔ song_input ≠ []
       ∧ Forall (λ r, py_lower (song_name r) ≠ py_lower song_input) demo_df).
Proof.
  apply (song_validation (rt := demo_runtime) demo_df (json_body "song" (JStr (lit "No Such Song "))) 0%nat
           (lit "No Such Song ")).
  right. exists [(lit "song", JStr (lit "No Such Song "))]. split; reflexivity.
Defined.

(** X10 on the example data: " SONG A" and "song a  ". *)
Lemma song_query_case_insensitive_witness :
  recommend_songs_by_song (rt := demo_runtime) demo_df
    (json_body "song" (JStr (lit "song a  "))) 2%nat
  = (Ok (200%nat, song_ok_body (py_strip (lit "song a  ")) (lit "Happy")
                    [lit "Song F"; lit "Song C"; lit "Song B"]), 3%nat).
Proof.
  apply (song_query_case_insensitive (rt := demo_runtime) demo_df
           (json_body "song" (JStr (lit " SONG A")))
           (json_body "song" (JStr (lit "song a  "))) 2%nat
           (lit " SONG A") (lit "song a  ") (lit "Happy")
           [lit "Song F"; lit "Song C"; lit "Song B"] 3%nat).
  - exists [(lit "song", JStr (lit " SONG A"))]. split; reflexivity.
  - exists [(lit "song", JStr (lit "song a  "))]. split; reflexivity.
  - vm_compute. discriminate.
  - vm_compute. discriminate.
  - vm_compute. reflexivity.
  - vm_compute. reflexivity.
Defined.

(** X11 on the example data: the echo of " SONG A". *)
Lemma echoed_song_input_witness :
  let b := song_ok_body (lit "SONG A") (lit "Happy")
             [lit "Song F"; lit "Song C"; lit "Song B"] in
  ∃ (song_input predicted_mood : str) (recommendations : list str),
    b = song_ok_body song_input predicted_mood recommendations
    ∧ request_field (lit "song") (json_body "song" (JStr (lit " SONG A")))
      = Ok song_input
    ∧ song_input ≠ []
    ∧ trimmed song_input
    ∧ ∃ r, r ∈ demo_df ∧ py_lower (song_name r) = py_lower song_input.
Proof.
  intros b.
  apply (echoed_song_input (rt := demo_runtime) demo_df (json_body "song" (JStr (lit " SONG A")))
           2%nat b 3%nat).
  vm_compute. reflexivity.
Defined.

(** X12 on the example data: " hAPPY ". *)
Lemma normalize_query_idemp_witness :
  normalize_query (normalize_query (lit " hAPPY ")) = normalize_query (lit " hAPPY ")
  ∧ trimmed (normalize_query (lit " hAPPY "))
  ∧ normalize_query (normalize_dataset (lit " hAPPY "))
    = normalize_dataset (lit " hAPPY ").
Proof.
  apply (normalize_query_idemp (lit " hAPPY ")).
  apply is_ascii_decide. vm_compute. exact I.
Defined.

(** X13 on the example data: "happy" and " HAPPY ". *)
Lemma mood_query_case_insensitive_witness :
  recommend_songs_by_mood (rt := demo_runtime) demo_df (json_body "mood" (JStr (lit "happy"))) 0%nat
  = recommend_songs_by_mood (rt := demo_runtime) demo_df (json_body "mood" (JStr (lit " HAPPY "))) 0%nat.
Proof.
  apply (mood_query_case_insensitive (rt := demo_runtime) demo_df
           (json_body "mood" (JStr (lit "happy")))
           (json_body "mood" (JStr (lit " HAPPY "))) 0%nat
           (lit "happy") (lit " HAPPY ")).
  - exists [(lit "mood", JStr (lit "happy"))]. split; reflexivity.
  - exists [(lit "mood", JStr (lit " HAPPY "))]. split; reflexivity.
  - apply is_ascii_decide. vm_compute. exact I.
  - apply is_ascii_decide. vm_compute. exact I.
  - vm_compute. reflexivity.
Defined.

(** X14 on the example data: the listed mood "Sad". *)
Lemma listed_mood_accepted_witness :
  ∃ songs,
    recommend_songs_by_mood (rt := demo_runtime) (preprocess demo_raw)
      (Some (JObj [(lit "mood", JStr (lit "Sad"))])) 0%nat
    = (Ok (200%nat, mood_ok_body (lit "Sad") songs), (randint (Runtime := demo_runtime) 5 8 0%nat).2).
Proof.
  apply (listed_mood_accepted (rt := demo_runtime) demo_raw 0%nat (lit "Sad") demo_np_choice_in_range).
  - repeat constructor; simpl; try (apply is_ascii_decide; vm_compute; exact I).
  - apply (bool_decide_unpack _). vm_compute. exact I.
  - vm_compute. discriminate.
Defined.

(** X15 on the example data, under the behaviour of pandas before 3.0: "Song
    D" has no mood. *)
Lemma missing_mood_served_as_Nan_witness :
  lit "Nan" ∈ available_moods (preprocess demo_raw)
  ∧ ∃ r, r ∈ songs_by_mood (preprocess demo_raw) (lit "Nan")
         ∧ song_name r = song_name (demo_song "Song D" CNaN 20)
         ∧ features r = features (demo_song "Song D" CNaN 20).
Proof.
  apply (missing_mood_served_as_Nan demo_raw (demo_song "Song D" CNaN 20)).
  - reflexivity.
  - apply (list_elem_of_lookup_2 _ 4). reflexivity.
  - reflexivity.
Defined.

(** X18 on a data set with one blank mood. *)
Lemma blank_mood_listed_but_rejected_witness :
  [] ∈ available_moods (preprocess [demo_song "Song G" (CStr (lit "  ")) 10])
  ∧ songs_by_mood (preprocess [demo_song "Song G" (CStr (lit "  ")) 10]) [] ≠ []
  ∧ recommend_songs_by_mood (rt := demo_runtime)
      (preprocess [demo_song "Song G" (CStr (lit "  ")) 10])
      (Some (JObj [(lit "mood", JStr [])])) 0%nat
    = (Ok (400%nat, error_body (lit "Mood is required.")), 0%nat).
Proof.
  apply (blank_mood_listed_but_rejected (rt := demo_runtime)
           [demo_song "Song G" (CStr (lit "  ")) 10]
           (demo_song "Song G" (CStr (lit "  ")) 10) (lit "  ") 0%nat).
  - apply list_elem_of_here.
  - reflexivity.
  - reflexivity.
Defined.

(** X17 on the example data: the answer to the mood query "sad". *)
Lemma recommendations_nonempty_witness :
  let b := mood_ok_body (lit "Sad") [lit "Song E"; lit "song a"] in
  ∃ (m song_input : str) (names : list str),
    b = ok_body RecommendMood m song_input names
    ∧ (1 ≤ length names ≤ 8)%nat.
Proof.
  intros b.
  apply (recommendations_nonempty (rt := demo_runtime) RecommendMood demo_df
           (json_body "mood" (JStr (lit "sad"))) 0%nat b 1%nat
           demo_randint_in_range demo_np_choice_sized).
  vm_compute. reflexivity.
Defined.
End ExtraExamples.
